(** * The multi-chain RPC client of status-go ([rpc/client.go])

    A shallow embedding of [rpc.Client]: the endpoint cache
    ([getClientUsingCache]), the dispatch core ([CallContext],
    [CallContextIgnoringLocalHandlers], [callMethod]), the upstream
    reconfiguration ([UpdateUpstreamURL]) and the reflective result binder
    ([setResultFromRPCResponse]).

    Go values are modelled with their dynamic types, [reflect] with its
    panics, the Client as a record threaded through a state-and-panic monad,
    and every collaborator outside the file (dialing, the network manager,
    handlers, transports, [encoding/json]) as a member of a type class. *)

From Stdlib Require Import ZArith NArith Lia Bool.
From Stdlib.Strings Require Import Byte.
From stdpp Require Import base option list strings gmap pretty.

Set Default Proof Using "Type".
#[local] Set Warnings "-register-all".
Local Open Scope string_scope.
Local Open Scope list_scope.

(** ** Go types and dynamically typed values *)

Module gotypes.

(** [reflect.Kind]. *)
Inductive Kind :=
  | Invalid | Bool | Int | Int8 | Int16 | Int32 | Int64
  | Uint | Uint8 | Uint16 | Uint32 | Uint64 | Uintptr
  | Float32 | Float64 | Complex64 | Complex128
  | Array | Chan | Func | Interface | Map | Pointer | Slice
  | String | Struct | UnsafePointer.

(** [Kind.String]. *)
Definition Kind_String (k : Kind) : string :=
  match k with
  | Invalid => "invalid" | Bool => "bool" | Int => "int" | Int8 => "int8"
  | Int16 => "int16" | Int32 => "int32" | Int64 => "int64"
  | Uint => "uint" | Uint8 => "uint8" | Uint16 => "uint16"
  | Uint32 => "uint32" | Uint64 => "uint64" | Uintptr => "uintptr"
  | Float32 => "float32" | Float64 => "float64"
  | Complex64 => "complex64" | Complex128 => "complex128"
  | Array => "array" | Chan => "chan" | Func => "func"
  | Interface => "interface" | Map => "map" | Pointer => "ptr"
  | Slice => "slice" | String => "string" | Struct => "struct"
  | UnsafePointer => "unsafe.Pointer"
  end.

(** The predeclared types. *)
Inductive Basic :=
  | BBool | BInt | BInt8 | BInt16 | BInt32 | BInt64
  | BUint | BUint8 | BUint16 | BUint32 | BUint64 | BUintptr
  | BFloat32 | BFloat64 | BComplex64 | BComplex128
  | BString | BUnsafePointer.

Inductive ChanDir := RecvDir | SendDir | BothDir.

(** A Go type.  Identical types are equal terms: an unnamed type is its
    structure, a defined type is its qualified name together with its
    underlying type.  A method is named by its name and signature. *)
Inductive GoType :=
  | TBasic (b : Basic)
  | TArray (len : N) (elem : GoType)
  | TChan (dir : ChanDir) (elem : GoType)
  | TFunc (signature : string)
  | TInterface (methods : list string)
  | TMap (key elem : GoType)
  | TPtr (elem : GoType)
  | TSlice (elem : GoType)
  | TStruct (fields : Fields)
  | TNamed (name : string) (underlying : GoType)
with Fields :=
  | FNil
  | FCons (name : string) (typ : GoType) (rest : Fields).

Definition Kind_eq_dec (a b : Kind) : {a = b} + {a <> b}.
Proof. decide equality. Defined.

Definition Basic_eq_dec (a b : Basic) : {a = b} + {a <> b}.
Proof. decide equality. Defined.

Definition ChanDir_eq_dec (a b : ChanDir) : {a = b} + {a <> b}.
Proof. decide equality. Defined.

Fixpoint GoType_eq_dec (a b : GoType) {struct a} : {a = b} + {a <> b}
with Fields_eq_dec (a b : Fields) {struct a} : {a = b} + {a <> b}.
Proof.
  - decide equality;
      solve [ apply Basic_eq_dec | apply N.eq_dec | apply ChanDir_eq_dec
            | apply String.string_dec
            | apply (List.list_eq_dec String.string_dec) ].
  - decide equality. apply String.string_dec.
Defined.

#[global] Instance Kind_eqdec : EqDecision Kind := Kind_eq_dec.
#[global] Instance ChanDir_eqdec : EqDecision ChanDir := ChanDir_eq_dec.
#[global] Instance GoType_eqdec : EqDecision GoType := GoType_eq_dec.

Definition Basic_Kind (b : Basic) : Kind :=
  match b with
  | BBool => Bool | BInt => Int | BInt8 => Int8 | BInt16 => Int16
  | BInt32 => Int32 | BInt64 => Int64 | BUint => Uint | BUint8 => Uint8
  | BUint16 => Uint16 | BUint32 => Uint32 | BUint64 => Uint64
  | BUintptr => Uintptr | BFloat32 => Float32 | BFloat64 => Float64
  | BComplex64 => Complex64 | BComplex128 => Complex128
  | BString => String | BUnsafePointer => UnsafePointer
  end.

(** The underlying type: a defined type's definition, any other type
    itself. *)
Fixpoint underlying (t : GoType) : GoType :=
  match t with
  | TNamed _ u => underlying u
  | _ => t
  end.

(** [Type.Kind]. *)
Definition kindOf (t : GoType) : Kind :=
  match underlying t with
  | TBasic b => Basic_Kind b
  | TArray _ _ => Array
  | TChan _ _ => Chan
  | TFunc _ => Func
  | TInterface _ => Interface
  | TMap _ _ => Map
  | TPtr _ => Pointer
  | TSlice _ => Slice
  | TStruct _ => Struct
  | TNamed _ _ => Invalid
  end.

(** A type has a name when it is predeclared or defined. *)
Definition hasName (t : GoType) : bool :=
  match t with
  | TBasic _ | TNamed _ _ => true
  | _ => false
  end.

Definition ChanDir_prefix (d : ChanDir) : string :=
  match d with
  | RecvDir => "<-chan " | SendDir => "chan<- " | BothDir => "chan "
  end.

Definition join (sep : string) (l : list string) : string :=
  match l with
  | [] => ""
  | x :: r => fold_left (fun acc y => acc +:+ sep +:+ y) r x
  end.

(** [Type.String]. *)
Fixpoint GoType_String (t : GoType) : string :=
  match t with
  | TBasic b => Kind_String (Basic_Kind b)
  | TArray n e => "[" +:+ pretty n +:+ "]" +:+ GoType_String e
  | TChan d e => ChanDir_prefix d +:+ GoType_String e
  | TFunc s => s
  | TInterface [] => "interface {}"
  | TInterface ms => "interface { " +:+ join "; " ms +:+ " }"
  | TMap k e => "map[" +:+ GoType_String k +:+ "]" +:+ GoType_String e
  | TPtr e => "*" +:+ GoType_String e
  | TSlice e => "[]" +:+ GoType_String e
  | TStruct FNil => "struct {}"
  | TStruct fs => "struct { " +:+ join "; " (Fields_Strings fs) +:+ " }"
  | TNamed n _ => n
  end
with Fields_Strings (fs : Fields) : list string :=
  match fs with
  | FNil => []
  | FCons n t r => (n +:+ " " +:+ GoType_String t) :: Fields_Strings r
  end.

(** Addresses of variables. *)
Definition loc := N.

(** The value of a variable, without its type.  All integer kinds carry
    their number, floats their bit pattern; a slice, map or pointer may be
    nil; channels, functions and unsafe pointers are opaque handles. *)
Inductive val :=
  | VBool (b : bool)
  | VInt (z : Z)
  | VFloat (bits : Z)
  | VComplex (re im : Z)
  | VString (s : string)
  | VArray (elems : list val)
  | VSlice (elems : option (list val))
  | VMap (entries : option (list (val * val)))
  | VPtr (p : option loc)
  | VStruct (fields : list val)
  | VIface (dyn : option (GoType * val))
  | VHandle (h : option N).

(** An [interface{}] value: nil, or a dynamic type with its value. *)
Definition iface := option (GoType * val).

(** The memory holding the variables result pointers point to. *)
Abbreviation Mem := (gmap loc val).

Definition byteVal (b : Byte.byte) : val := VInt (Z.of_N (Byte.to_N b)).

(** A non-nil [[]byte] with the given contents. *)
Definition bytesVal (data : list Byte.byte) : val := VSlice (Some (byteVal <$> data)).

Definition T_bytes : GoType := TSlice (TBasic BUint8).
Definition T_RawMessage : GoType := TNamed "json.RawMessage" T_bytes.
Definition T_any : GoType := TInterface [].

End gotypes.
Export gotypes.

(** ** Errors and panics *)

(** A Go [error].  [ErrMethodNotFound] is the package variable of the
    client; [errorString] is what [errors.New] and [fmt.Errorf] build;
    [External] is an error made by a collaborator (a dial, a handler, a
    transport, the JSON encoder), told apart by a tag. *)
Inductive error :=
  | ErrMethodNotFound
  | errorString (s : string)
  | External (tag : N) (msg : string).

(** The [Error] method. *)
Definition Error (e : error) : string :=
  match e with
  | ErrMethodNotFound => "The method does not exist/is not available"
  | errorString s => s
  | External _ msg => msg
  end.

(** What a [panic] carries. *)
Inductive PanicValue :=
  | ValueError (Method : string) (k : Kind)
  | PanicString (s : string)
  | PanicRuntime (msg : string)
  | PanicError (e : error).

Definition ValueError_Error (Method : string) (k : Kind) : string :=
  match k with
  | Invalid => "reflect: call of " +:+ Method +:+ " on zero Value"
  | _ => "reflect: call of " +:+ Method +:+ " on " +:+ Kind_String k +:+ " Value"
  end.

(** The panic value as the verb [%s] prints it. *)
Definition PanicValue_String (r : PanicValue) : string :=
  match r with
  | ValueError m k => ValueError_Error m k
  | PanicString s => s
  | PanicRuntime msg => "runtime error: " +:+ msg
  | PanicError e => Error e
  end.

(** A computation returns or panics. *)
Inductive Outcome (A : Type) :=
  | Ret (a : A)
  | Panic (r : PanicValue).
Arguments Ret {A} a.
Arguments Panic {A} r.

Definition nilDereference : PanicValue :=
  PanicRuntime "invalid memory address or nil pointer dereference".

(** The method sets of the program's types that are not interfaces. *)
Class MethodTable := methodsOf : GoType -> list string.

(** ** The part of package [reflect] the binder uses *)

Module reflect.
Section reflect.
Context {MT : MethodTable}.

(** Where a [Value] keeps its data: in the [Value] itself, or in the
    variable at an address. *)
Inductive Data :=
  | Imm (v : val)
  | Indir (l : loc).

(** [reflect.Value]: the zero Value, or a type, the data and the flags
    [flagRO] and [flagAddr]. *)
Inductive Value :=
  | ZeroValue
  | MkValue (typ : GoType) (data : Data) (flagRO flagAddr : bool).

Definition ValueOf (i : iface) : Value :=
  match i with
  | None => ZeroValue
  | Some (t, v) => MkValue t (Imm v) false false
  end.

Definition load (m : Mem) (d : Data) : option val :=
  match d with
  | Imm v => Some v
  | Indir l => m !! l
  end.

Definition Value_Kind (v : Value) : Kind :=
  match v with
  | ZeroValue => Invalid
  | MkValue t _ _ _ => kindOf t
  end.

(** [Value.Elem]: the variable a pointer points to (addressable), or the
    value an interface holds; the zero Value for nil; a panic for any other
    kind. *)
Definition Elem (m : Mem) (v : Value) : Outcome Value :=
  match v with
  | ZeroValue => Panic (ValueError "reflect.Value.Elem" Invalid)
  | MkValue t d ro _ =>
      match underlying t with
      | TInterface _ =>
          match load m d with
          | Some (VIface (Some (t', v'))) => Ret (MkValue t' (Imm v') ro false)
          | Some (VIface None) => Ret ZeroValue
          | _ => Panic nilDereference
          end
      | TPtr e =>
          match load m d with
          | Some (VPtr (Some l)) => Ret (MkValue e (Indir l) ro true)
          | Some (VPtr None) => Ret ZeroValue
          | _ => Panic nilDereference
          end
      | _ => Panic (ValueError "reflect.Value.Elem" (kindOf t))
      end
  end.

(** [Value.Type]. *)
Definition Type_ (v : Value) : Outcome GoType :=
  match v with
  | ZeroValue => Panic (ValueError "reflect.Value.Type" Invalid)
  | MkValue t _ _ _ => Ret t
  end.

(** [Value.CanSet]: addressable and not obtained through an unexported
    field. *)
Definition CanSet (v : Value) : bool :=
  match v with
  | ZeroValue => false
  | MkValue _ _ ro addr => addr && negb ro
  end.

Definition chanDirOf (t : GoType) : option ChanDir :=
  match underlying t with
  | TChan d _ => Some d
  | _ => None
  end.

Definition chanElem (t : GoType) : option GoType :=
  match underlying t with
  | TChan _ e => Some e
  | _ => None
  end.

Definition isDefined (t : GoType) : bool :=
  match t with
  | TNamed _ _ => true
  | _ => false
  end.

Definition specialChannelAssignability (T V : GoType) : bool :=
  bool_decide (chanDirOf V = Some BothDir)
  && (negb (isDefined T) || negb (isDefined V))
  && bool_decide (chanElem T = chanElem V).

(** A value of type [V] can be stored as it is in a variable of type [T]. *)
Definition directlyAssignable (T V : GoType) : bool :=
  if bool_decide (T = V) then true
  else if (hasName T && hasName V) || negb (bool_decide (kindOf T = kindOf V))
  then false
  else if bool_decide (kindOf T = Chan) && specialChannelAssignability T V
  then true
  else bool_decide (underlying T = underlying V).

Definition methodSet (V : GoType) : list string :=
  match underlying V with
  | TInterface ms => ms
  | _ => methodsOf V
  end.

(** [T] is an interface type and [V] has all its methods. *)
Definition implements (T V : GoType) : bool :=
  match underlying T with
  | TInterface ms => forallb (fun m => bool_decide (m ∈ methodSet V)) ms
  | _ => false
  end.

(** A value of type [V] may be assigned to a variable of type [T]. *)
Definition assignable (T V : GoType) : bool :=
  directlyAssignable T V || implements T V.

(** The interface value holding the value [v] of type [t]. *)
Definition valueInterface (t : GoType) (v : val) : iface :=
  match underlying t, v with
  | TInterface _, VIface d => d
  | _, _ => Some (t, v)
  end.

(** [Value.assignTo]: the value [v] of type [t] as a value of type [dst]. *)
Definition assignTo (context : string) (dst t : GoType) (v : val) : Outcome val :=
  if directlyAssignable dst t then Ret v
  else if implements dst t then Ret (VIface (valueInterface t v))
  else Panic (PanicString (context +:+ ": value of type " +:+ GoType_String t
                +:+ " is not assignable to type " +:+ GoType_String dst)).

(** [Value.Set]. *)
Definition Set_ (v x : Value) (m : Mem) : Outcome Mem :=
  match v with
  | ZeroValue => Panic (ValueError "reflect.Value.Set" Invalid)
  | MkValue T d ro addr =>
      if ro then
        Panic (PanicString
          "reflect: reflect.Value.Set using value obtained using unexported field")
      else if negb addr then
        Panic (PanicString "reflect: reflect.Value.Set using unaddressable value")
      else
        match x with
        | ZeroValue => Panic (ValueError "reflect.Value.Set" Invalid)
        | MkValue t dx rox _ =>
            if rox then
              Panic (PanicString
                "reflect: reflect.Value.Set using value obtained using unexported field")
            else
              match load m dx, d with
              | Some px, Indir l =>
                  match assignTo "reflect.Set" T t px with
                  | Ret p' => Ret (<[l := p']> m)
                  | Panic r => Panic r
                  end
              | _, _ => Panic nilDereference
              end
        end
  end.

End reflect.
End reflect.
Export reflect.

(** ** Collaborators of the client *)

(** [params.Network], the fields the client reads. *)
Record Network := {
  ChainID : N;
  RPCURL : string;
  FallbackURL : string;
}.

(** [params.UpstreamRPCConfig]. *)
Record UpstreamRPCConfig := {
  Enabled : bool;
  URL : string;
}.

(** What lies outside the package: the types of contexts, connections
    ([*gethrpc.Client], never nil), handlers ([Handler] function values), the
    database and the network manager, the state of the outside world, and the
    library functions that act on it.  A chain identifier is a [uint64]; the
    client only compares it, prints it and uses it as a key, so it is a
    number without wrap-around. *)
Class Platform := {
  Context_ : Type;
  Conn : Type;
  Handler : Type;
  DB : Type;
  Manager : Type;
  World : Type;
  (** [gethrpc.Dial] *)
  gethrpc_Dial : string -> World -> (Conn + error) * World;
  (** [network.NewManager], [Manager.Init], [Manager.Find] *)
  network_NewManager : DB -> Manager;
  Manager_Init : Manager -> list Network -> World -> option error * World;
  Manager_Find : Manager -> N -> World -> option Network;
  (** [json.Marshal] *)
  json_Marshal : Mem -> iface -> Outcome (list Byte.byte + error);
  #[global] Platform_methods :: MethodTable;
}.

(** The policy data of the router: which methods are never served and which
    go to a chain endpoint. *)
Class RouterPolicy := {
  blockedMethod : string -> bool;
  remoteMethod : string -> bool;
}.

Section Client.
Context {PF : Platform} {RP : RouterPolicy}.

(** Modelled from the spec: the router ([rpc/route.go]) is not among the
    sources.  It is constructed once with the upstream-enabled flag;
    [routeBlocked] is true for the methods that must never be served,
    whatever the upstream configuration; [routeRemote] is true for the
    methods sent to a chain endpoint when upstream routing is enabled, and
    always false when it is not. *)
Record router := {
  r_upstreamEnabled : bool;
}.

Definition newRouter (upstreamEnabled : bool) : router :=
  {| r_upstreamEnabled := upstreamEnabled |}.

Definition routeBlocked (r : router) (method : string) : bool :=
  blockedMethod method.

Definition routeRemote (r : router) (method : string) : bool :=
  if negb (r_upstreamEnabled r) then false else remoteMethod method.

(** Modelled from the spec: [chain.ClientWithFallback] ([rpc/chain]) is not
    among the sources.  An endpoint record holds the chain identifier, the
    primary connection and the optional fallback connection. *)
Record ClientWithFallback := {
  cwf_ChainID : N;
  cwf_main : Conn;
  cwf_fallback : option Conn;
}.

(** [rpc.Client].  The logger has no state of its own here; the mutex of the
    handlers guards single reads and writes of the registry and has none
    either; taking and releasing the lock of the client itself is logged
    (see [Event]).  A pointer to an endpoint record is an index in
    [endpoints] below, and the router is a pointer too; [None] is nil. *)
Record Client := {
  upstreamEnabled : bool;
  upstreamURL : string;
  UpstreamChainID : N;
  local : option Conn;
  upstream : option nat;
  rpcClients : gmap N (option nat);
  router_ : option router;
  NetworkManager : Manager;
  handlers : gmap string Handler;
}.

(** What the client asks of its collaborators, in order, and when it takes
    ([c.Lock()]) and releases ([c.Unlock()]) its own lock. *)
Inductive Event :=
  | EvCountCall (method : string)
  | EvInit (networks : list Network)
  | EvFind (chainID : N)
  | EvDial (url : string)
  | EvLog (level msg : string)
  | EvChainCall (client : nat) (method : string)
  | EvLocalCall (method : string)
  | EvLock
  | EvUnlock.

(** Everything but the client: the endpoint records allocated so far (a
    pointer is an index), the memory of result slots, the outside world and
    the log of collaborator calls. *)
Record Env := {
  endpoints : list ClientWithFallback;
  mem : Mem;
  world : World;
  trace : list Event;
}.

Record State := {
  client : Client;
  env : Env;
}.

(** *** The state-and-panic monad *)

Definition M (S A : Type) : Type := S -> Outcome A * S.

Definition ret {S A} (a : A) : M S A := fun s => (Ret a, s).

Definition bind {S A B} (m : M S A) (k : A -> M S B) : M S B :=
  fun s =>
    match m s with
    | (Ret a, s') => k a s'
    | (Panic r, s') => (Panic r, s')
    end.

Definition panic {S A} (r : PanicValue) : M S A := fun s => (Panic r, s).

Definition gets {S A} (f : S -> A) : M S A := fun s => (Ret (f s), s).

Definition modify {S} (f : S -> S) : M S unit := fun s => (Ret tt, f s).

(** An action on the environment, run by the client. *)
Definition liftEnv {A} (m : M Env A) : M State A :=
  fun s =>
    let '(r, e) := m (env s) in
    (r, {| client := client s; env := e |}).

End Client.

Notation "'let*' x := m 'in' k" := (bind m (fun x => k))
  (at level 10, x name, m at level 100, k at level 200, only parsing).
Notation "'let*' ' p := m 'in' k" := (bind m (fun x => let 'p := x in k))
  (at level 10, p pattern, m at level 100, k at level 200, only parsing).
Notation "m ;;; k" := (bind m (fun _ => k))
  (at level 100, k at level 200, right associativity, only parsing).

(** The collaborators that run code against the whole state: a handler, the
    call of an endpoint record ([ClientWithFallback.CallContext]) and the
    call of a connection ([gethrpc.Client.CallContext]).  They are taken to
    return. *)
Class Collaborators `{PF : Platform} := {
  run_handler :
    Handler -> Context_ -> N -> list iface -> M State (iface * option error);
  chain_CallContext :
    ClientWithFallback -> Context_ -> iface -> string -> list iface ->
    M State (option error);
  gethrpc_CallContext :
    Conn -> Context_ -> iface -> string -> list iface -> M State (option error);
}.

(** ** The client *)

Section Operations.
Context `{CO : Collaborators} {RP : RouterPolicy}.

Definition of_outcome {S A} (o : Outcome A) : M S A := fun s => (o, s).

Definition set_trace (t : list Event) (e : Env) : Env :=
  {| endpoints := endpoints e; mem := mem e; world := world e; trace := t |}.

Definition set_world (w : World) (e : Env) : Env :=
  {| endpoints := endpoints e; mem := mem e; world := w; trace := trace e |}.

Definition set_endpoints (l : list ClientWithFallback) (e : Env) : Env :=
  {| endpoints := l; mem := mem e; world := world e; trace := trace e |}.

Definition set_mem (m : Mem) (e : Env) : Env :=
  {| endpoints := endpoints e; mem := m; world := world e; trace := trace e |}.

Definition set_client (c : Client) (s : State) : State :=
  {| client := c; env := env s |}.

Definition set_env (e : Env) (s : State) : State :=
  {| client := client s; env := e |}.

(** An action on the memory of result slots, run by the client. *)
Definition liftMem {A} (m : M Mem A) : M State A :=
  fun s =>
    let '(r, h) := m (mem (env s)) in
    (r, set_env (set_mem h (env s)) s).

Definition emit (ev : Event) : M Env unit :=
  modify (fun e => set_trace (trace e ++ [ev]) e).

(** [rpcstats.CountCall]. *)
Definition CountCall (method : string) : M Env unit :=
  emit (EvCountCall method).

Definition log_ (level msg : string) : M Env unit :=
  emit (EvLog level msg).

(** [gethrpc.Dial]: asks the outside world for a connection. *)
Definition Dial (url : string) : M Env (Conn + error) :=
  emit (EvDial url) ;;;
  fun e =>
    let '(r, w) := gethrpc_Dial url (world e) in
    (Ret r, set_world w e).

(** [NetworkManager.Init]. *)
Definition Init (nm : Manager) (networks : list Network) : M Env (option error) :=
  emit (EvInit networks) ;;;
  fun e =>
    let '(r, w) := Manager_Init nm networks (world e) in
    (Ret r, set_world w e).

(** [NetworkManager.Find]. *)
Definition Find (nm : Manager) (chainID : N) : M Env (option Network) :=
  emit (EvFind chainID) ;;;
  gets (fun e => Manager_Find nm chainID (world e)).

Definition new_endpoint (r : ClientWithFallback) : M Env nat :=
  fun e => (Ret (length (endpoints e)), set_endpoints (endpoints e ++ [r]) e).

(** Modelled from the spec: [chain.NewClient] and [chain.NewSimpleClient]
    ([rpc/chain]) are not among the sources.  Construction takes the primary
    connection, the optional fallback connection and the chain identifier,
    and gives a new endpoint record. *)
Definition chain_NewClient (main : Conn) (fallback : option Conn) (chainID : N)
  : M Env nat :=
  new_endpoint {| cwf_ChainID := chainID; cwf_main := main; cwf_fallback := fallback |}.

Definition chain_NewSimpleClient (main : Conn) (chainID : N) : M Env nat :=
  new_endpoint {| cwf_ChainID := chainID; cwf_main := main; cwf_fallback := None |}.

Definition dialError (err : error) : error :=
  errorString ("dial upstream server: " +:+ Error err).

(** [NewClient]. *)
Definition NewClient (client_ : option Conn) (upstreamChainID : N)
    (upstream_ : UpstreamRPCConfig) (networks : list Network) (db : DB)
  : M Env (option Client * option error) :=
  let networkManager := network_NewManager db in
  let* err := Init networkManager networks in
  (match err with
   | Some _ => log_ "error" "Network manager failed to initialize"
   | None => ret tt
   end) ;;;
  let c := {| upstreamEnabled := false; upstreamURL := ""; UpstreamChainID := 0%N;
              local := client_; upstream := None; rpcClients := ∅;
              router_ := None; NetworkManager := networkManager;
              handlers := ∅ |} in
  let* r :=
    (if Enabled upstream_ then
       let* d := Dial (URL upstream_) in
       match d with
       | inr err => ret (inr (dialError err))
       | inl upstreamClient =>
           let* p := chain_NewSimpleClient upstreamClient upstreamChainID in
           ret (inl {| upstreamEnabled := Enabled upstream_;
                       upstreamURL := URL upstream_;
                       UpstreamChainID := upstreamChainID;
                       local := local c; upstream := Some p;
                       rpcClients := rpcClients c; router_ := router_ c;
                       NetworkManager := NetworkManager c;
                       handlers := handlers c |})
       end
     else ret (inl c)) in
  match r with
  | inr e => ret (None, Some e)
  | inl c =>
      ret (Some {| upstreamEnabled := upstreamEnabled c;
                   upstreamURL := upstreamURL c;
                   UpstreamChainID := UpstreamChainID c;
                   local := local c; upstream := upstream c;
                   rpcClients := rpcClients c;
                   router_ := Some (newRouter (upstreamEnabled c));
                   NetworkManager := NetworkManager c;
                   handlers := handlers c |}, None)
  end.

Definition set_rpcClients (m : gmap N (option nat)) (c : Client) : Client :=
  {| upstreamEnabled := upstreamEnabled c; upstreamURL := upstreamURL c;
     UpstreamChainID := UpstreamChainID c; local := local c;
     upstream := upstream c; rpcClients := m; router_ := router_ c;
     NetworkManager := NetworkManager c; handlers := handlers c |}.

Definition set_upstream (p : option nat) (c : Client) : Client :=
  {| upstreamEnabled := upstreamEnabled c; upstreamURL := upstreamURL c;
     UpstreamChainID := UpstreamChainID c; local := local c;
     upstream := p; rpcClients := rpcClients c; router_ := router_ c;
     NetworkManager := NetworkManager c; handlers := handlers c |}.

Definition set_upstreamURL (url : string) (c : Client) : Client :=
  {| upstreamEnabled := upstreamEnabled c; upstreamURL := url;
     UpstreamChainID := UpstreamChainID c; local := local c;
     upstream := upstream c; rpcClients := rpcClients c; router_ := router_ c;
     NetworkManager := NetworkManager c; handlers := handlers c |}.

Definition set_handlers (h : gmap string Handler) (c : Client) : Client :=
  {| upstreamEnabled := upstreamEnabled c; upstreamURL := upstreamURL c;
     UpstreamChainID := UpstreamChainID c; local := local c;
     upstream := upstream c; rpcClients := rpcClients c; router_ := router_ c;
     NetworkManager := NetworkManager c; handlers := h |}.

Definition modify_client (f : Client -> Client) : M State unit :=
  modify (fun s => set_client (f (client s)) s).

(** [Client.getClientUsingCache]. *)
Definition getClientUsingCache (chainID : N) : M State (option nat * option error) :=
  let* c := gets client in
  match rpcClients c !! chainID with
  | Some rpcClient => ret (rpcClient, None)
  | None =>
      let* network := liftEnv (Find (NetworkManager c) chainID) in
      match network with
      | None =>
          if bool_decide (UpstreamChainID c = chainID) then ret (upstream c, None)
          else ret (None, Some (errorString
                                  ("could not find network: " +:+ pretty chainID)))
      | Some network =>
          let* d := liftEnv (Dial (RPCURL network)) in
          match d with
          | inr err => ret (None, Some (dialError err))
          | inl rpcClient =>
              let* f :=
                (if bool_decide (0 < String.length (FallbackURL network)) then
                   let* d := liftEnv (Dial (FallbackURL network)) in
                   match d with
                   | inr err => ret (inr (dialError err))
                   | inl fc => ret (inl (Some fc))
                   end
                 else ret (inl None)) in
              match f with
              | inr e => ret (None, Some e)
              | inl rpcFallbackClient =>
                  let* client_ :=
                    liftEnv (chain_NewClient rpcClient rpcFallbackClient chainID) in
                  modify_client
                    (fun c => set_rpcClients (<[chainID := Some client_]> (rpcClients c)) c) ;;;
                  ret (Some client_, None)
              end
          end
      end
  end.

(** [Client.EthClient]. *)
Definition EthClient (chainID : N) : M State (option nat * option error) :=
  let* '(client_, err) := getClientUsingCache chainID in
  match err with
  | Some e => ret (None, Some e)
  | None => ret (client_, None)
  end.

(** Statements run one after the other. *)
Fixpoint sequence (statements : list (M State unit)) : M State unit :=
  match statements with
  | [] => ret tt
  | statement :: rest => statement ;;; sequence rest
  end.

(** The four statements [UpdateUpstreamURL] ends with: the lock is taken,
    the upstream endpoint is assigned, the upstream URL is assigned, the lock
    is released. *)
Definition replace_upstream (rpcClient : Conn) (url : string) : list (M State unit) :=
  [ liftEnv (emit EvLock);
    (let* c := gets client in
     let* p := liftEnv (chain_NewSimpleClient rpcClient (UpstreamChainID c)) in
     modify_client (set_upstream (Some p)));
    modify_client (set_upstreamURL url);
    liftEnv (emit EvUnlock) ].

(** [Client.UpdateUpstreamURL]. *)
Definition UpdateUpstreamURL (url : string) : M State (option error) :=
  let* c := gets client in
  match upstream c with
  | None => ret None
  | Some _ =>
      let* d := liftEnv (Dial url) in
      match d with
      | inr err => ret (Some err)
      | inl rpcClient =>
          sequence (replace_upstream rpcClient url) ;;;
          ret None
      end
  end.

(** The deferred function of [setResultFromRPCResponse]: a panic of the body
    is recovered and becomes the returned error. *)
Definition recover_invalid_result {S} (body : M S (option error)) : M S (option error) :=
  fun s =>
    match body s with
    | (Ret err, s') => (Ret err, s')
    | (Panic r, s') =>
        (Ret (Some (errorString ("invalid result type: " +:+ PanicValue_String r))), s')
    end.

Definition isRawBytes (T : GoType) : bool :=
  bool_decide (T = T_RawMessage) || bool_decide (T = T_bytes).

(** The end of [setResultFromRPCResponse]: the [CanSet] check on the target
    and the assignment [value.Set(responseValue)]. *)
Definition assignResult (value responseValue : Value) : M Mem (option error) :=
  if negb (CanSet value) then
    ret (Some (errorString "can't assign value to result"))
  else
    let* m := gets id in
    let* m' := of_outcome (Set_ value responseValue m) in
    modify (fun _ => m') ;;;
    ret None.

(** [setResultFromRPCResponse]. *)
Definition setResultFromRPCResponse (result response : iface) : M Mem (option error) :=
  recover_invalid_result (
    let responseValue := ValueOf response in
    let* m := gets id in
    let* target := of_outcome (Elem m (ValueOf result)) in
    let* T := of_outcome (Type_ target) in
    let* r :=
      (if isRawBytes T then
         let* j := of_outcome (json_Marshal m response) in
         match j with
         | inr err => ret (inr err)
         | inl data => ret (inl (ValueOf (Some (T_bytes, bytesVal data))))
         end
       else ret (inl responseValue)) in
    match r with
    | inr err => ret (Some err)
    | inl responseValue =>
        let* value := of_outcome (Elem m (ValueOf result)) in
        assignResult value responseValue
    end).

(** [Client.handler]. *)
Definition handler (method : string) : M State (option Handler) :=
  gets (fun s => handlers (client s) !! method).

(** [Client.RegisterHandler]. *)
Definition RegisterHandler (method : string) (h : Handler) : M State unit :=
  modify_client (fun c => set_handlers (<[method := h]> (handlers c)) c).

(** [Client.callMethod]. *)
Definition callMethod (ctx : Context_) (result : iface) (chainID : N)
    (h : Handler) (args : list iface) : M State (option error) :=
  let* '(response, err) := run_handler h ctx chainID args in
  match err with
  | Some e => ret (Some e)
  | None =>
      match result with
      | None => ret None
      | Some _ => liftMem (setResultFromRPCResponse result response)
      end
  end.

(** The call [c.router.routeBlocked(method)]. *)
Definition router_routeBlocked (method : string) : M State bool :=
  let* r := gets (fun s => router_ (client s)) in
  match r with
  | None => panic nilDereference
  | Some r => ret (routeBlocked r method)
  end.

(** The call [c.router.routeRemote(method)]. *)
Definition router_routeRemote (method : string) : M State bool :=
  let* r := gets (fun s => router_ (client s)) in
  match r with
  | None => panic nilDereference
  | Some r => ret (routeRemote r method)
  end.

(** The call [client.CallContext(ctx, result, method, args...)] on an
    endpoint pointer. *)
Definition endpoint_CallContext (p : option nat) (ctx : Context_) (result : iface)
    (method : string) (args : list iface) : M State (option error) :=
  match p with
  | None => panic nilDereference
  | Some a =>
      let* r := gets (fun s => endpoints (env s) !! a) in
      match r with
      | None => panic nilDereference
      | Some record =>
          liftEnv (emit (EvChainCall a method)) ;;;
          chain_CallContext record ctx result method args
      end
  end.

(** [Client.CallContextIgnoringLocalHandlers]. *)
Definition CallContextIgnoringLocalHandlers (ctx : Context_) (result : iface)
    (chainID : N) (method : string) (args : list iface) : M State (option error) :=
  let* blocked := router_routeBlocked method in
  if blocked then ret (Some ErrMethodNotFound)
  else
    let* remote := router_routeRemote method in
    if remote then
      let* '(client_, err) := getClientUsingCache chainID in
      match err with
      | Some e => ret (Some e)
      | None => endpoint_CallContext client_ ctx result method args
      end
    else
      let* l := gets (fun s => local (client s)) in
      match l with
      | None =>
          liftEnv (log_ "warn" "Local JSON-RPC endpoint missing") ;;;
          ret (Some (errorString "missing local JSON-RPC endpoint"))
      | Some conn =>
          liftEnv (emit (EvLocalCall method)) ;;;
          gethrpc_CallContext conn ctx result method args
      end.

(** [Client.CallContext]. *)
Definition CallContext (ctx : Context_) (result : iface) (chainID : N)
    (method : string) (args : list iface) : M State (option error) :=
  liftEnv (CountCall method) ;;;
  let* blocked := router_routeBlocked method in
  if blocked then ret (Some ErrMethodNotFound)
  else
    let* h := handler method in
    match h with
    | Some h => callMethod ctx result chainID h args
    | None => CallContextIgnoringLocalHandlers ctx result chainID method args
    end.

End Operations.

(** ** The remaining operations of the client *)

Section MoreOperations.
Context `{CO : Collaborators} {RP : RouterPolicy}.

(** The loop of [Client.EthClients]: [clients] is the slice built so far. *)
Fixpoint EthClients_loop (chainIDs : list N) (clients : list (option nat))
  : M State (option (list (option nat)) * option error) :=
  match chainIDs with
  | [] => ret (Some clients, None)
  | chainID :: rest =>
      let* '(client_, err) := getClientUsingCache chainID in
      match err with
      | Some e => ret (None, Some e)
      | None => EthClients_loop rest (clients ++ [client_])
      end
  end.

(** [Client.EthClients]: the endpoints of the chains, in order, or nil and
    the first error. *)
Definition EthClients (chainIDs : list N)
  : M State (option (list (option nat)) * option error) :=
  EthClients_loop chainIDs [].

(** [Client.Call]; [background] is [context.Background()]. *)
Definition Call (background : Context_) (result : iface) (chainID : N)
    (method : string) (args : list iface) : M State (option error) :=
  CallContext background result chainID method args.

End MoreOperations.

(** ** What the properties speak of *)

Section Observations.
Context `{CO : Collaborators}.

(** The state with more collaborator calls logged. *)
Definition logged (evs : list Event) (s : State) : State :=
  set_env (set_trace (trace (env s) ++ evs) (env s)) s.

(** The state with a new content of the result slots. *)
Definition with_mem (m : Mem) (s : State) : State :=
  set_env (set_mem m (env s)) s.

Definition isDial (ev : Event) : bool :=
  match ev with
  | EvDial _ => true
  | _ => false
  end.

(** The number of dials in a log. *)
Definition dials (t : list Event) : nat := length (List.filter isDial t).

(** The dials a network configuration asks for. *)
Definition dial_events (n : Network) : list Event :=
  EvDial (RPCURL n)
  :: (if bool_decide (0 < String.length (FallbackURL n)) then [EvDial (FallbackURL n)] else []).

(** The fallback connection a configuration gets in a world: none when no
    fallback URL is declared, else what the dial gives. *)
Definition dial_fallback (n : Network) (w : World) : (option Conn + error) * World :=
  if bool_decide (0 < String.length (FallbackURL n)) then
    match gethrpc_Dial (FallbackURL n) w with
    | (inl fc, w') => (inl (Some fc), w')
    | (inr err, w') => (inr err, w')
    end
  else (inl None, w).

(** The state after a successful first use of a chain. *)
Definition dialed (chainID : N) (n : Network) (conn : Conn) (fb : option Conn)
    (w : World) (s : State) : State :=
  {| client := set_rpcClients
                 (<[chainID := Some (length (endpoints (env s)))]> (rpcClients (client s)))
                 (client s);
     env := {| endpoints := endpoints (env s)
                 ++ [{| cwf_ChainID := chainID; cwf_main := conn; cwf_fallback := fb |}];
               mem := mem (env s);
               world := w;
               trace := trace (env s) ++ EvFind chainID :: dial_events n |} |}.

(** Two lookups in a row for one chain id: the same reference both times
    and one dial in all. *)
Definition one_dial_for_two_lookups (chainID : N) (s : State) : Prop :=
  exists p s1 s2,
    getClientUsingCache chainID s = (Ret (Some p, None), s1)
    /\ getClientUsingCache chainID s1 = (Ret (Some p, None), s2)
    /\ dials (trace (env s2)) = dials (trace (env s)) + 1.

(** The same for every chain id whose configuration has a dialable URL and,
    if it declares one, a dialable fallback URL. *)
Definition lookup_twice_dials_once (chainID : N) (s : State) : Prop :=
  forall n conn fb w1 w2,
    Manager_Find (NetworkManager (client s)) chainID (world (env s)) = Some n ->
    gethrpc_Dial (RPCURL n) (world (env s)) = (inl conn, w1) ->
    dial_fallback n w1 = (inl fb, w2) ->
    one_dial_for_two_lookups chainID s.





(** The state [UpdateUpstreamURL] is in after the dial it starts with. *)
Definition after_dial (url : string) (w : World) (s : State) : State :=
  set_env (set_world w (env (logged [EvDial url] s))) s.

(** The state after a successful [UpdateUpstreamURL]. *)
Definition upstream_replaced (url : string) (conn : Conn) (w : World) (s : State) : State :=
  {| client :=
       {| upstreamEnabled := upstreamEnabled (client s); upstreamURL := url;
          UpstreamChainID := UpstreamChainID (client s); local := local (client s);
          upstream := Some (length (endpoints (env s)));
          rpcClients := rpcClients (client s); router_ := router_ (client s);
          NetworkManager := NetworkManager (client s);
          handlers := handlers (client s) |};
     env :=
       {| endpoints := endpoints (env s)
            ++ [{| cwf_ChainID := UpstreamChainID (client s); cwf_main := conn;
                   cwf_fallback := None |}];
          mem := mem (env s);
          world := w;
          trace := trace (env s) ++ [EvDial url; EvLock; EvUnlock] |} |}.

(** The error a recovered panic becomes. *)
Definition invalidResultType (r : PanicValue) : error :=
  errorString ("invalid result type: " +:+ PanicValue_String r).

(** A result that is a non-nil pointer. *)
Definition isValidPointer (result : iface) : bool :=
  match result with
  | Some (pt, VPtr (Some _)) =>
      match underlying pt with
      | TPtr _ => true
      | _ => false
      end
  | _ => false
  end.

(** The dynamic type of an interface value is never an interface type. *)
Definition isConcrete (i : iface) : bool :=
  match i with
  | Some (t, _) => negb (bool_decide (kindOf t = Interface))
  | None => true
  end.

(** What a slot of type [T] holds after a value [v] of type [t] is assigned
    to it: the value itself, or, for a slot of another, interface type, the
    interface value holding it. *)
Definition slotValue (T t : GoType) (v : val) : val :=
  if directlyAssignable T t then v else VIface (valueInterface t v).

End Observations.

Section MoreObservations.
Context `{CO : Collaborators}.

(** Every pointer the client holds points to an endpoint record of the
    right chain: a cache entry to a record of the chain it is cached under,
    the upstream to a record of the upstream chain without fallback. *)
Definition cache_wf (s : State) : Prop :=
  (forall id p,
     rpcClients (client s) !! id = Some p ->
     exists a record,
       p = Some a
       /\ endpoints (env s) !! a = Some record
       /\ cwf_ChainID record = id)
  /\ (forall a,
        upstream (client s) = Some a ->
        exists record,
          endpoints (env s) !! a = Some record
          /\ cwf_ChainID record = UpstreamChainID (client s)
          /\ cwf_fallback record = None).

(** The second state keeps what the first holds: every cache entry, every
    endpoint record at its address, and the fields of the client that no
    lookup writes. *)
Definition keeps (s s' : State) : Prop :=
  rpcClients (client s) ⊆ rpcClients (client s')
  /\ endpoints (env s) `prefix_of` endpoints (env s')
  /\ upstream (client s') = upstream (client s)
  /\ upstreamURL (client s') = upstreamURL (client s)
  /\ UpstreamChainID (client s') = UpstreamChainID (client s)
  /\ upstreamEnabled (client s') = upstreamEnabled (client s)
  /\ router_ (client s') = router_ (client s)
  /\ local (client s') = local (client s)
  /\ NetworkManager (client s') = NetworkManager (client s)
  /\ handlers (client s') = handlers (client s)
  /\ mem (env s') = mem (env s).

End MoreObservations.

(** ** A sample platform

    A small concrete world on which the definitions run: connections are
    the URLs dialed, the network manager reads a list of configurations, a
    URL is unreachable when the world lists it so, handlers are canned
    answers, and the JSON encoder covers booleans, integers, plain strings,
    string-keyed maps (entries given in key order) and interface values. *)

Module Sample.

Record SampleWorld := {
  configs : list Network;
  unreachable : list string;
}.

Inductive SampleHandler :=
  | Answer (response : iface)
  | Fail (e : error)
  | Crash (r : PanicValue).

Definition refused : error := External 1 "connection refused".

Definition sample_Dial (url : string) (w : SampleWorld) : (string + error) * SampleWorld :=
  if bool_decide (url ∈ unreachable w) then (inr refused, w) else (inl url, w).

Definition sample_Init (nm : unit) (networks : list Network) (w : SampleWorld)
  : option error * SampleWorld :=
  (None, {| configs := networks; unreachable := unreachable w |}).

Definition sample_Find (nm : unit) (chainID : N) (w : SampleWorld) : option Network :=
  match filter (fun n => ChainID n = chainID) (configs w) with
  | [n] => Some n
  | _ => None
  end.

Definition dquote : string := String.String (Ascii.ascii_of_nat 34) "".

Fixpoint encode (v : val) : option string :=
  match v with
  | VBool true => Some "true"
  | VBool false => Some "false"
  | VInt z => Some (pretty z)
  | VString s => Some (dquote +:+ s +:+ dquote)
  | VIface None => Some "null"
  | VIface (Some (_, x)) => encode x
  | VMap None => Some "null"
  | VMap (Some entries) =>
      let fix members (l : list (val * val)) : option (list string) :=
        match l with
        | [] => Some []
        | (VString k, x) :: r =>
            match encode x, members r with
            | Some e, Some es => Some ((dquote +:+ k +:+ dquote +:+ ":" +:+ e) :: es)
            | _, _ => None
            end
        | _ => None
        end in
      match members entries with
      | Some es => Some ("{" +:+ join "," es +:+ "}")
      | None => None
      end
  | _ => None
  end.

Definition sample_Marshal (m : Mem) (i : iface) : Outcome (list Byte.byte + error) :=
  match encode (VIface i) with
  | Some s => Ret (inl (String.list_byte_of_string s))
  | None => Ret (inr (External 2 "json: unsupported type"))
  end.

Definition sample_platform : Platform := {|
  Context_ := unit;
  Conn := string;
  Handler := SampleHandler;
  DB := unit;
  Manager := unit;
  World := SampleWorld;
  gethrpc_Dial := sample_Dial;
  network_NewManager := fun _ => tt;
  Manager_Init := sample_Init;
  Manager_Find := sample_Find;
  json_Marshal := sample_Marshal;
  Platform_methods := fun _ => [];
|}.

Definition sample_run (h : SampleHandler) (ctx : unit) (chainID : N) (args : list iface)
  : M (@State sample_platform) (iface * option error) :=
  match h with
  | Answer r => ret (r, None)
  | Fail e => ret (None, Some e)
  | Crash r => panic r
  end.

Definition sample_call (ctx : unit) (result : iface) (method : string) (args : list iface)
  : M (@State sample_platform) (option error) :=
  ret None.

Definition sample_collaborators : @Collaborators sample_platform :=
  @Build_Collaborators sample_platform sample_run
    (fun _ => sample_call) (fun _ => sample_call).

Definition sample_policy : RouterPolicy := {|
  blockedMethod := fun m => bool_decide (m ∈ ["shh_getPrivateKey"]);
  remoteMethod := fun m => bool_decide (m ∈ ["eth_getBalance"; "eth_call"; "eth_blockNumber"]);
|}.

#[local] Existing Instances sample_platform sample_collaborators sample_policy.

(** Chain 1 has a primary and a fallback URL, chain 10 a primary URL only,
    chain 137 a fallback that cannot be reached, chain 250 a primary that
    cannot be reached. *)
Definition networks0 : list Network := [
  {| ChainID := 1; RPCURL := "https://mainnet.example"; FallbackURL := "https://backup.example" |};
  {| ChainID := 10; RPCURL := "https://optimism.example"; FallbackURL := "" |};
  {| ChainID := 137; RPCURL := "https://polygon.example"; FallbackURL := "https://down.example" |};
  {| ChainID := 250; RPCURL := "https://down.example"; FallbackURL := "https://backup.example" |} ].

Definition world0 : SampleWorld :=
  {| configs := []; unreachable := ["https://down.example"; "wss://new-endpoint"] |}.

Definition env0 : Env :=
  {| endpoints := []; mem := ∅; world := world0; trace := [] |}.

(** The state after [NewClient] with the given upstream configuration. *)
Definition boot (upstreamChainID : N) (up : UpstreamRPCConfig) : option State :=
  match NewClient (Some "ipc://local") upstreamChainID up networks0 tt env0 with
  | (Ret (Some c, None), e) => Some {| client := c; env := e |}
  | _ => None
  end.

Definition upstream_on : UpstreamRPCConfig :=
  {| Enabled := true; URL := "https://upstream.example" |}.

Definition upstream_off : UpstreamRPCConfig :=
  {| Enabled := false; URL := "" |}.

Definition client_on : Client :=
  {| upstreamEnabled := true; upstreamURL := "https://upstream.example";
     UpstreamChainID := 1; local := Some "ipc://local"; upstream := Some 0;
     rpcClients := ∅; router_ := Some (newRouter true);
     NetworkManager := tt; handlers := ∅ |}.

Definition env_on : Env :=
  {| endpoints := [{| cwf_ChainID := 1; cwf_main := "https://upstream.example";
                      cwf_fallback := None |}];
     mem := ∅;
     world := {| configs := networks0; unreachable := unreachable world0 |};
     trace := [EvInit networks0; EvDial "https://upstream.example"] |}.

(** The state [boot 1 upstream_on] gives. *)
Definition state_on : State := {| client := client_on; env := env_on |}.

Definition T_int : GoType := TBasic BInt.
Definition T_string : GoType := TBasic BString.
Definition T_object : GoType := TMap T_string T_any.

(** The structured value [{ "x": 1 }]. *)
Definition object_x1 : iface :=
  Some (T_object, VMap (Some [(VString "x", VIface (Some (T_int, VInt 1)))])).

(** The configurations of chains 1 and 137 in [networks0]. *)
Definition network1 : Network :=
  {| ChainID := 1; RPCURL := "https://mainnet.example";
     FallbackURL := "https://backup.example" |}.

Definition network137 : Network :=
  {| ChainID := 137; RPCURL := "https://polygon.example";
     FallbackURL := "https://down.example" |}.

(** A pointer to an [int] variable and to a [[]byte] variable. *)
Definition int_slot : iface := Some (TPtr T_int, VPtr (Some 7%N)).
Definition bytes_slot : iface := Some (TPtr T_bytes, VPtr (Some 7%N)).

(** The text [{"x":1}]. *)
Definition json_x1 : string := "{" +:+ dquote +:+ "x" +:+ dquote +:+ ":1}".

(** The error of a handler. *)
Definition insufficient_funds : error := External 7 "insufficient funds".

(** The state after chain 1 has been used once. *)
Definition state_cached : State := snd (getClientUsingCache 1 state_on).

(** A client whose upstream chain, 5, has no configuration. *)
Definition state_five : State :=
  {| client :=
       {| upstreamEnabled := true; upstreamURL := "https://upstream.example";
          UpstreamChainID := 5; local := Some "ipc://local"; upstream := Some 0;
          rpcClients := ∅; router_ := Some (newRouter true);
          NetworkManager := tt; handlers := ∅ |};
     env :=
       {| endpoints := [{| cwf_ChainID := 5; cwf_main := "https://upstream.example";
                           cwf_fallback := None |}];
          mem := ∅;
          world := {| configs := networks0; unreachable := unreachable world0 |};
          trace := [EvInit networks0; EvDial "https://upstream.example"] |} |}.

(** A client without upstream and without local endpoint. *)
Definition state_off : State :=
  {| client :=
       {| upstreamEnabled := false; upstreamURL := ""; UpstreamChainID := 0;
          local := None; upstream := None; rpcClients := ∅;
          router_ := Some (newRouter false); NetworkManager := tt; handlers := ∅ |};
     env := env0 |}.

(** A pointer to a variable of type [interface{}]. *)
Definition any_slot : iface := Some (TPtr T_any, VPtr (Some 7%N)).

(** The sample platform with a database that cannot be written: the
    initialisation of the network manager fails. *)
Definition broken_platform : Platform := {|
  Context_ := unit;
  Conn := string;
  Handler := SampleHandler;
  DB := unit;
  Manager := unit;
  World := SampleWorld;
  gethrpc_Dial := sample_Dial;
  network_NewManager := fun _ => tt;
  Manager_Init := fun _ _ w => (Some (External 3 "database is locked"), w);
  Manager_Find := sample_Find;
  json_Marshal := sample_Marshal;
  Platform_methods := fun _ => [];
|}.

Definition broken_env0 : @Env broken_platform :=
  @Build_Env broken_platform [] ∅ world0 [].

End Sample.

(** * Properties *)

Section Properties.
Context `{CO : Collaborators} {RP : RouterPolicy}.

Lemma with_mem_same (s : State) : with_mem (mem (env s)) s = s.
Proof. by destruct s as [c []]. Qed.

Ltac run :=
  unfold bind, ret, gets, modify, panic, liftEnv, liftMem, of_outcome,
    modify_client, emit, CountCall, log_ in *; simpl in *.

Lemma router_routeBlocked_eq (s : State) r method :
  router_ (client s) = Some r ->
  router_routeBlocked method s = (Ret (routeBlocked r method), s).
Proof. intros H. unfold router_routeBlocked. run. by rewrite H. Qed.

Lemma router_routeRemote_eq (s : State) r method :
  router_ (client s) = Some r ->
  router_routeRemote method s = (Ret (routeRemote r method), s).
Proof. intros H. unfold router_routeRemote. run. by rewrite H. Qed.

Lemma CallContext_unfold ctx result chainID method args (s : State) r :
  router_ (client s) = Some r ->
  CallContext ctx result chainID method args s =
    if routeBlocked r method then
      (Ret (Some ErrMethodNotFound), logged [EvCountCall method] s)
    else
      match handlers (client s) !! method with
      | Some h => callMethod ctx result chainID h args (logged [EvCountCall method] s)
      | None =>
          CallContextIgnoringLocalHandlers ctx result chainID method args
            (logged [EvCountCall method] s)
      end.
Proof.
  intros H. unfold CallContext, handler.
  unfold bind at 1. unfold liftEnv, CountCall, emit, modify. simpl.
  fold (logged [EvCountCall method] s).
  unfold bind at 1.
  rewrite (router_routeBlocked_eq (logged [EvCountCall method] s) r) by done.
  destruct (routeBlocked r method); [done|].
  unfold bind at 1. unfold gets. simpl.
  by destruct (handlers (client s) !! method).
Qed.

(** C1: a method the router classifies as blocked makes [CallContext] and
    [CallContextIgnoringLocalHandlers] return [ErrMethodNotFound], whatever
    the chain id, the upstream flag of the router and the handler registry;
    nothing but the call count is touched, so the handler registry is not
    even read, and registering a handler for the method changes nothing. *)
Theorem CallContext_blocked ctx result chainID method args (s : State) r :
  router_ (client s) = Some r ->
  routeBlocked r method = true ->
  CallContext ctx result chainID method args s
    = (Ret (Some ErrMethodNotFound), logged [EvCountCall method] s)
  /\ CallContextIgnoringLocalHandlers ctx result chainID method args s
    = (Ret (Some ErrMethodNotFound), s)
  /\ forall h,
      let s' := snd (RegisterHandler method h s) in
      handlers (client s') !! method = Some h
      /\ CallContext ctx result chainID method args s'
         = (Ret (Some ErrMethodNotFound), logged [EvCountCall method] s').
Proof.
  intros Hr Hb. split; [|split].
  - rewrite (CallContext_unfold _ _ _ _ _ _ r) by done. by rewrite Hb.
  - unfold CallContextIgnoringLocalHandlers. unfold bind at 1.
    rewrite (router_routeBlocked_eq s r) by done. by rewrite Hb.
  - intros h s'. split.
    + subst s'. unfold RegisterHandler. run. apply lookup_insert_eq.
    + rewrite (CallContext_unfold _ _ _ _ _ _ r) by done. by rewrite Hb.
Qed.

Lemma recover_invalid_result_returns {S} (body : M S (option error)) (s : S) :
  exists err s', recover_invalid_result body s = (Ret err, s').
Proof.
  unfold recover_invalid_result. destruct (body s) as [[err|r] s']; eauto.
Qed.

Lemma setResultFromRPCResponse_returns result response (m : Mem) :
  exists err m', setResultFromRPCResponse result response m = (Ret err, m').
Proof. apply recover_invalid_result_returns. Qed.

Lemma callMethod_unfold ctx result chainID h args (s : State) :
  callMethod ctx result chainID h args s =
    match run_handler h ctx chainID args s with
    | (Ret (response, Some e), s1) => (Ret (Some e), s1)
    | (Ret (response, None), s1) =>
        match result with
        | None => (Ret None, s1)
        | Some _ =>
            let '(o, m') := setResultFromRPCResponse result response (mem (env s1)) in
            (o, with_mem m' s1)
        end
    | (Panic p, s1) => (Panic p, s1)
    end.
Proof.
  unfold callMethod. unfold bind at 1.
  destruct (run_handler h ctx chainID args s) as [[[response [e|]]|p] s1]; try done.
  destruct result; done.
Qed.

Lemma CallContext_handler_path ctx result chainID method args (s : State) r h :
  router_ (client s) = Some r ->
  routeBlocked r method = false ->
  handlers (client s) !! method = Some h ->
  CallContext ctx result chainID method args s
    = callMethod ctx result chainID h args (logged [EvCountCall method] s).
Proof.
  intros Hr Hb Hh.
  rewrite (CallContext_unfold _ _ _ _ _ _ r) by done. by rewrite Hb, Hh.
Qed.

(** C2: when the method is not blocked and a handler is registered for it,
    [CallContext] counts the call and then is [callMethod] with that handler
    on [(ctx, chainID, args)]: the state it ends in is the state the handler
    ended in, but for the result slot the binder may have written.  The
    client itself reads no route classification, looks up and dials no
    endpoint and calls no transport: it adds nothing to the world, the
    endpoint records, the cache or the log of collaborator calls. *)
Theorem CallContext_registered_handler ctx result chainID method args (s : State) r h :
  router_ (client s) = Some r ->
  routeBlocked r method = false ->
  handlers (client s) !! method = Some h ->
  let s0 := logged [EvCountCall method] s in
  CallContext ctx result chainID method args s
    = callMethod ctx result chainID h args s0
  /\ match run_handler h ctx chainID args s0 with
     | (Ret _, s1) =>
         exists err m',
           CallContext ctx result chainID method args s = (Ret err, with_mem m' s1)
     | (Panic p, s1) =>
         CallContext ctx result chainID method args s = (Panic p, s1)
     end.
Proof.
  intros Hr Hb Hh s0. subst s0.
  pose proof (CallContext_handler_path ctx result chainID method args s r h Hr Hb Hh) as E.
  split; [done|]. rewrite E, callMethod_unfold.
  destruct (run_handler h ctx chainID args (logged [EvCountCall method] s))
    as [[[response [e|]]|p] s1]; try done.
  - exists (Some e), (mem (env s1)). by rewrite with_mem_same.
  - destruct result as [slot|].
    + destruct (setResultFromRPCResponse_returns (Some slot) response (mem (env s1)))
        as (err & m' & ->). eauto.
    + exists None, (mem (env s1)). by rewrite with_mem_same.
Qed.

(** C9: when the handler [CallContext] runs returns an error, that very
    error is returned and the state is the one the handler left, so the
    result slot is not written; and whenever the slot memory differs from
    what the handler left, the handler had returned without error (and a
    result slot was given). *)
Theorem CallContext_handler_error ctx result chainID method args (s : State) r h out s1 :
  router_ (client s) = Some r ->
  routeBlocked r method = false ->
  handlers (client s) !! method = Some h ->
  run_handler h ctx chainID args (logged [EvCountCall method] s) = (out, s1) ->
  (forall response e,
     out = Ret (response, Some e) ->
     CallContext ctx result chainID method args s = (Ret (Some e), s1))
  /\ (forall o s2,
        CallContext ctx result chainID method args s = (o, s2) ->
        mem (env s2) <> mem (env s1) ->
        result <> None /\ exists response, out = Ret (response, None)).
Proof.
  intros Hr Hb Hh Hrun.
  rewrite (CallContext_handler_path ctx result chainID method args s r h Hr Hb Hh).
  rewrite callMethod_unfold, Hrun. split.
  - intros response e ->. done.
  - intros o s2. destruct out as [[response [e|]]|p].
    + intros [= <- <-] Hne. done.
    + destruct result as [slot|].
      * intros _ _. split; [done|]. eauto.
      * intros [= <- <-] Hne. done.
    + intros [= <- <-] Hne. done.
Qed.

(** *** The endpoint cache *)

Lemma getClientUsingCache_cached chainID (s : State) p :
  rpcClients (client s) !! chainID = Some p ->
  getClientUsingCache chainID s = (Ret (p, None), s).
Proof. intros H. unfold getClientUsingCache. run. by rewrite H. Qed.

Lemma getClientUsingCache_no_network chainID (s : State) :
  rpcClients (client s) !! chainID = None ->
  Manager_Find (NetworkManager (client s)) chainID (world (env s)) = None ->
  getClientUsingCache chainID s =
    (Ret (if bool_decide (UpstreamChainID (client s) = chainID)
          then (upstream (client s), None)
          else (None, Some (errorString ("could not find network: " +:+ pretty chainID)))),
     logged [EvFind chainID] s).
Proof.
  intros Hc Hf. unfold getClientUsingCache, Find. run. rewrite Hc. simpl.
  rewrite Hf. by case_bool_decide.
Qed.

Lemma getClientUsingCache_primary_fails chainID (s : State) n err w1 :
  rpcClients (client s) !! chainID = None ->
  Manager_Find (NetworkManager (client s)) chainID (world (env s)) = Some n ->
  gethrpc_Dial (RPCURL n) (world (env s)) = (inr err, w1) ->
  getClientUsingCache chainID s =
    (Ret (None, Some (dialError err)),
     set_env (set_world w1 (env (logged [EvFind chainID; EvDial (RPCURL n)] s))) s).
Proof.
  intros Hc Hf Hd. unfold getClientUsingCache, Find, Dial. run. rewrite Hc. simpl.
  rewrite Hf. simpl. rewrite Hd. simpl.
  unfold set_env, set_world, set_trace. simpl. by rewrite <- app_assoc.
Qed.

Lemma getClientUsingCache_fallback_fails chainID (s : State) n conn err w1 w2 :
  rpcClients (client s) !! chainID = None ->
  Manager_Find (NetworkManager (client s)) chainID (world (env s)) = Some n ->
  gethrpc_Dial (RPCURL n) (world (env s)) = (inl conn, w1) ->
  0 < String.length (FallbackURL n) ->
  gethrpc_Dial (FallbackURL n) w1 = (inr err, w2) ->
  getClientUsingCache chainID s =
    (Ret (None, Some (dialError err)),
     set_env (set_world w2
       (env (logged [EvFind chainID; EvDial (RPCURL n); EvDial (FallbackURL n)] s))) s).
Proof.
  intros Hc Hf Hd Hlen Hd2. unfold getClientUsingCache, Find, Dial. run. rewrite Hc. simpl.
  rewrite Hf. simpl. rewrite Hd. simpl.
  rewrite bool_decide_eq_true_2 by done. simpl. rewrite Hd2. simpl.
  unfold set_env, set_world, set_trace. simpl. by rewrite <- !app_assoc.
Qed.

Lemma getClientUsingCache_dials chainID (s : State) n conn fb w1 w2 :
  rpcClients (client s) !! chainID = None ->
  Manager_Find (NetworkManager (client s)) chainID (world (env s)) = Some n ->
  gethrpc_Dial (RPCURL n) (world (env s)) = (inl conn, w1) ->
  dial_fallback n w1 = (inl fb, w2) ->
  getClientUsingCache chainID s =
    (Ret (Some (length (endpoints (env s))), None), dialed chainID n conn fb w2 s).
Proof.
  intros Hc Hf Hd Hfb. unfold getClientUsingCache, Find, Dial, chain_NewClient, new_endpoint.
  run. rewrite Hc. simpl. rewrite Hf. simpl. rewrite Hd. simpl.
  unfold dial_fallback in Hfb. unfold dialed, dial_events.
  case_bool_decide; simpl.
  - destruct (gethrpc_Dial (FallbackURL n) w1) as [[fc|err] w']; [|done].
    injection Hfb as <- <-. simpl.
    unfold set_client, set_env, set_world, set_trace, set_endpoints. simpl.
    by rewrite <- !app_assoc.
  - injection Hfb as <- <-.
    unfold set_client, set_env, set_world, set_trace, set_endpoints. simpl.
    by rewrite <- !app_assoc.
Qed.

Lemma dials_app (t u : list Event) : dials (t ++ u) = dials t + dials u.
Proof. unfold dials. by rewrite List.filter_app, length_app. Qed.

Lemma dials_dial_events (n : Network) :
  dials (dial_events n)
  = if bool_decide (0 < String.length (FallbackURL n)) then 2 else 1.
Proof. unfold dial_events. by case_bool_decide. Qed.

(** C3, amended: for a chain id that is not cached yet and whose
    configuration has a dialable URL (and a dialable fallback URL if it
    declares one), two lookups in a row return the same reference to the
    endpoint record made by the first; the first dials each configured URL
    once (one dial, or two with a fallback), the second leaves the state as
    it is: no dial, no lookup of the configuration. *)
Theorem getClientUsingCache_twice chainID (s : State) n conn fb w1 w2 :
  rpcClients (client s) !! chainID = None ->
  Manager_Find (NetworkManager (client s)) chainID (world (env s)) = Some n ->
  gethrpc_Dial (RPCURL n) (world (env s)) = (inl conn, w1) ->
  dial_fallback n w1 = (inl fb, w2) ->
  let p := length (endpoints (env s)) in
  exists s1,
    getClientUsingCache chainID s = (Ret (Some p, None), s1)
    /\ getClientUsingCache chainID s1 = (Ret (Some p, None), s1)
    /\ endpoints (env s1) !! p
       = Some {| cwf_ChainID := chainID; cwf_main := conn; cwf_fallback := fb |}
    /\ trace (env s1) = trace (env s) ++ EvFind chainID :: dial_events n
    /\ dials (trace (env s1))
       = dials (trace (env s))
         + (if bool_decide (0 < String.length (FallbackURL n)) then 2 else 1).
Proof.
  intros Hc Hf Hd Hfb p. exists (dialed chainID n conn fb w2 s).
  split; [by apply (getClientUsingCache_dials chainID s n conn fb w1 w2)|].
  split; [|split; [|split]].
  - apply getClientUsingCache_cached. simpl. apply lookup_insert_eq.
  - simpl. rewrite lookup_app_r by done. by rewrite Nat.sub_diag.
  - done.
  - simpl. rewrite dials_app. change (EvFind chainID :: dial_events n)
      with ([EvFind chainID] ++ dial_events n).
    rewrite dials_app, dials_dial_events. done.
Qed.

(** C6: a chain id that is not cached, has no configuration and is not the
    upstream's chain id gets the error [could not find network: <id>]; only
    the lookup of the configuration is logged, the cache and everything else
    stay as they were, and once the world holds a dialable configuration for
    the id the next lookup succeeds. *)
Theorem getClientUsingCache_network_not_found chainID (s : State) :
  rpcClients (client s) !! chainID = None ->
  Manager_Find (NetworkManager (client s)) chainID (world (env s)) = None ->
  UpstreamChainID (client s) <> chainID ->
  let s1 := logged [EvFind chainID] s in
  getClientUsingCache chainID s
    = (Ret (None, Some (errorString ("could not find network: " +:+ pretty chainID))), s1)
  /\ rpcClients (client s1) = rpcClients (client s)
  /\ forall w' n conn fb w1 w2,
      let s2 := set_env (set_world w' (env s1)) s1 in
      Manager_Find (NetworkManager (client s)) chainID w' = Some n ->
      gethrpc_Dial (RPCURL n) w' = (inl conn, w1) ->
      dial_fallback n w1 = (inl fb, w2) ->
      getClientUsingCache chainID s2
        = (Ret (Some (length (endpoints (env s))), None), dialed chainID n conn fb w2 s2).
Proof.
  intros Hc Hf Hne s1. split; [|split].
  - rewrite getClientUsingCache_no_network by done.
    by rewrite bool_decide_eq_false_2.
  - done.
  - intros w' n conn fb w1 w2 s2 Hf' Hd Hfb.
    by apply (getClientUsingCache_dials chainID s2 n conn fb w1 w2).
Qed.

(** C7: for a chain id that is not cached, a failed dial of the primary
    URL, or of the declared fallback URL after the primary dial succeeded,
    makes the lookup return the dial failure ([dial upstream server: ...]);
    no endpoint record is made and the client, its cache included, is
    unchanged. *)
Theorem getClientUsingCache_dial_failure chainID (s : State) n :
  rpcClients (client s) !! chainID = None ->
  Manager_Find (NetworkManager (client s)) chainID (world (env s)) = Some n ->
  (forall err w1,
     gethrpc_Dial (RPCURL n) (world (env s)) = (inr err, w1) ->
     exists s',
       getClientUsingCache chainID s = (Ret (None, Some (dialError err)), s')
       /\ client s' = client s
       /\ endpoints (env s') = endpoints (env s))
  /\ (forall conn err w1 w2,
        0 < String.length (FallbackURL n) ->
        gethrpc_Dial (RPCURL n) (world (env s)) = (inl conn, w1) ->
        gethrpc_Dial (FallbackURL n) w1 = (inr err, w2) ->
        exists s',
          getClientUsingCache chainID s = (Ret (None, Some (dialError err)), s')
          /\ client s' = client s
          /\ endpoints (env s') = endpoints (env s)).
Proof.
  intros Hc Hf. split.
  - intros err w1 Hd. eexists. split; [by apply getClientUsingCache_primary_fails|done].
  - intros conn err w1 w2 Hlen Hd Hd2. eexists.
    split; [by apply (getClientUsingCache_fallback_fails chainID s n conn err w1 w2)|done].
Qed.

(** *** The upstream *)

Lemma UpdateUpstreamURL_cases url (s : State) :
  (upstream (client s) = None /\ UpdateUpstreamURL url s = (Ret None, s))
  \/ (exists p err w,
        upstream (client s) = Some p
        /\ gethrpc_Dial url (world (env s)) = (inr err, w)
        /\ UpdateUpstreamURL url s = (Ret (Some err), after_dial url w s))
  \/ (exists p conn w,
        upstream (client s) = Some p
        /\ gethrpc_Dial url (world (env s)) = (inl conn, w)
        /\ UpdateUpstreamURL url s = (Ret None, upstream_replaced url conn w s)
        /\ snd (sequence (replace_upstream conn url) (after_dial url w s))
           = upstream_replaced url conn w s).
Proof.
  unfold UpdateUpstreamURL, replace_upstream, sequence, Dial, chain_NewSimpleClient,
    new_endpoint. run.
  destruct (upstream (client s)) as [p|] eqn:Hu; simpl; [|by left].
  right. destruct (gethrpc_Dial url (world (env s))) as [[conn|err] w]; simpl.
  - right. exists p, conn, w. unfold upstream_replaced. simpl.
    rewrite <- !app_assoc. simpl. done.
  - left. by exists p, err, w.
Qed.




Lemma NewClient_upstream_disabled local_ upstreamChainID up networks db (e : Env) :
  Enabled up = false ->
  exists e',
    NewClient local_ upstreamChainID up networks db e =
      (Ret (Some {| upstreamEnabled := false; upstreamURL := ""; UpstreamChainID := 0%N;
                    local := local_; upstream := None; rpcClients := ∅;
                    router_ := Some (newRouter false);
                    NetworkManager := network_NewManager db;
                    handlers := ∅ |}, None), e').
Proof.
  intros H. unfold NewClient, Init. run. rewrite H.
  destruct (Manager_Init _ _ _) as [[err|] w]; simpl; eauto.
Qed.

(** C10: a client constructed with the upstream disabled has a nil
    upstream endpoint and the upstream chain id 0, whatever chain id was
    passed; for chain id 0, not cached and without configuration,
    [getClientUsingCache] and [EthClient] then return a nil endpoint with a
    nil error, after the lookup of the configuration alone: no dial, no
    [could not find network] error. *)
Theorem NewClient_disabled_upstream_chain_zero
    local_ upstreamChainID up networks db (e : Env) :
  Enabled up = false ->
  exists c e',
    NewClient local_ upstreamChainID up networks db e = (Ret (Some c, None), e')
    /\ upstream c = None
    /\ UpstreamChainID c = 0%N
    /\ rpcClients c !! 0%N = None
    /\ forall e2,
        Manager_Find (NetworkManager c) 0%N (world e2) = None ->
        let s := {| client := c; env := e2 |} in
        getClientUsingCache 0%N s = (Ret (None, None), logged [EvFind 0%N] s)
        /\ EthClient 0%N s = (Ret (None, None), logged [EvFind 0%N] s).
Proof.
  intros H.
  destruct (NewClient_upstream_disabled local_ upstreamChainID up networks db e H)
    as [e' E].
  eexists _, e'. split; [exact E|]. simpl. repeat split; try done.
  - rewrite getClientUsingCache_no_network by done. done.
  - unfold EthClient. unfold bind at 1.
    rewrite getClientUsingCache_no_network by done. done.
Qed.

(** *** The result binder *)

Lemma Elem_pointer (m : Mem) pt T l :
  underlying pt = TPtr T ->
  Elem m (ValueOf (Some (pt, VPtr (Some l)))) = Ret (MkValue T (Indir l) false true).
Proof. intros H. simpl. by rewrite H. Qed.

Lemma isRawBytes_assignable T :
  isRawBytes T = true -> directlyAssignable T T_bytes = true.
Proof.
  unfold isRawBytes. intros H. apply orb_true_iff in H as [H|H];
    apply bool_decide_eq_true in H; subst T; reflexivity.
Qed.

(** The binder on a non-nil pointer, case by case. *)
Lemma setResultFromRPCResponse_pointer (m : Mem) pt T l response :
  underlying pt = TPtr T ->
  setResultFromRPCResponse (Some (pt, VPtr (Some l))) response m =
    if isRawBytes T then
      match json_Marshal m response with
      | Ret (inl data) => (Ret None, <[l := bytesVal data]> m)
      | Ret (inr err) => (Ret (Some err), m)
      | Panic r => (Ret (Some (invalidResultType r)), m)
      end
    else
      match response with
      | None => (Ret (Some (invalidResultType (ValueError "reflect.Value.Set" Invalid))), m)
      | Some (t, v) =>
          if assignable T t then (Ret None, <[l := slotValue T t v]> m)
          else
            (Ret (Some (invalidResultType (PanicString
               ("reflect.Set: value of type " +:+ GoType_String t
                +:+ " is not assignable to type " +:+ GoType_String T)))), m)
      end.
Proof.
  intros H. unfold setResultFromRPCResponse, recover_invalid_result.
  unfold bind at 1. unfold gets at 1. cbn [id].
  unfold bind at 1. rewrite (Elem_pointer m pt T l H). unfold of_outcome at 1.
  unfold bind at 1. unfold of_outcome at 1. cbn [Type_].
  destruct (isRawBytes T) eqn:HT.
  - unfold bind at 1. unfold bind at 1. unfold of_outcome at 1.
    destruct (json_Marshal m response) as [[data|err]|r]; try done.
    unfold ret at 1. unfold bind at 1. unfold of_outcome at 1.
    unfold assignResult. cbn [CanSet andb negb].
    unfold bind, gets, of_outcome, modify, ret. cbn [id ValueOf Set_ negb load].
    unfold assignTo. by rewrite (isRawBytes_assignable T HT).
  - unfold bind at 1. unfold ret at 1. unfold bind at 1. unfold of_outcome at 1.
    unfold assignResult. cbn [CanSet andb negb].
    unfold bind, gets, of_outcome, modify, ret. cbn [id].
    destruct response as [[t v]|]; cbn [ValueOf Set_ negb load]; [|done].
    unfold assignTo, assignable, slotValue.
    destruct (directlyAssignable T t); [done|].
    destruct (implements T t); done.
Qed.

(** C4: binding a response [R] through a non-nil pointer to a slot of type
    [T].  When [T] is [json.RawMessage] or [[]byte], the slot receives the
    bytes [json.Marshal] gives for [R].  Otherwise the binder succeeds
    exactly when [R] has a dynamic type assignable to [T], and the slot then
    holds the value of [R] (for a slot of another, interface type: the
    interface value holding it). *)
Theorem setResultFromRPCResponse_binds (m : Mem) pt T l (R : iface) :
  underlying pt = TPtr T ->
  let result := Some (pt, VPtr (Some l)) in
  (isRawBytes T = true ->
     forall data, json_Marshal m R = Ret (inl data) ->
       setResultFromRPCResponse result R m = (Ret None, <[l := bytesVal data]> m)
       /\ (<[l := bytesVal data]> m) !! l = Some (bytesVal data))
  /\ (isRawBytes T = false ->
       (forall t v, R = Some (t, v) -> assignable T t = true ->
          setResultFromRPCResponse result R m = (Ret None, <[l := slotValue T t v]> m)
          /\ (<[l := slotValue T t v]> m) !! l = Some (slotValue T t v)
          /\ (T = t -> slotValue T t v = v))
       /\ (fst (setResultFromRPCResponse result R m) = Ret None
           <-> exists t v, R = Some (t, v) /\ assignable T t = true)
       /\ (fst (setResultFromRPCResponse result R m) <> Ret None ->
           snd (setResultFromRPCResponse result R m) = m)).
Proof.
  intros H result. subst result.
  rewrite (setResultFromRPCResponse_pointer m pt T l R H).
  split; intros HT; rewrite HT.
  - intros data ->. split; [done|]. apply lookup_insert_eq.
  - split; [|split].
    + intros t v -> Ha. rewrite Ha. split; [done|]. split; [apply lookup_insert_eq|].
      intros ->. unfold slotValue, directlyAssignable.
      by rewrite bool_decide_eq_true_2.
    + destruct R as [[t v]|]; simpl.
      * destruct (assignable T t) eqn:Ha; simpl.
        -- split; [eauto|done].
        -- split; [done|]. intros (t' & v' & [= <- <-] & Ha'). congruence.
      * split; [done|]. intros (t' & v' & ? & _). done.
    + destruct R as [[t v]|]; simpl; [|done].
      destruct (assignable T t); simpl; done.
Qed.

Lemma setResultFromRPCResponse_invalid_pointer (m : Mem) result response :
  isConcrete result = true ->
  isValidPointer result = false ->
  exists r, setResultFromRPCResponse result response m = (Ret (Some (invalidResultType r)), m).
Proof.
  intros Hc Hv.
  assert ((exists r, Elem m (ValueOf result) = Panic r)
          \/ Elem m (ValueOf result) = Ret ZeroValue) as HE.
  { destruct result as [[t v]|]; [|simpl; eauto].
    simpl in *. unfold kindOf in Hc.
    destruct (underlying t) eqn:E; simpl in *; eauto; try done.
    destruct v as [| | | | | | | |[l|]| | |]; simpl in *; eauto.
    done. }
  unfold setResultFromRPCResponse, recover_invalid_result.
  unfold bind at 1. unfold gets at 1. cbn [id].
  unfold bind at 1. unfold of_outcome at 1.
  destruct HE as [[r ->] | ->]; [eauto|].
  unfold bind at 1. unfold of_outcome at 1. cbn [Type_]. eauto.
Qed.

(** For a result as Go passes it, a target that has a type is settable:
    the check before the assignment never fails there. *)
Lemma target_settable (m : Mem) result value T :
  isConcrete result = true ->
  Elem m (ValueOf result) = Ret value ->
  Type_ value = Ret T ->
  CanSet value = true.
Proof.
  intros Hc HE HT. destruct result as [[t v]|]; [|done].
  simpl in *. unfold kindOf in Hc.
  destruct (underlying t) eqn:E; simpl in *; try done.
  destruct v as [| | | | | | | |[l|]| | |]; simpl in *; try done.
  - by injection HE as <-.
  - by injection HE as <-.
Qed.

(** C8: the binder always returns, with nil or an error, and never panics;
    the assignment is guarded, a target that is not settable giving the
    error [can't assign value to result]; a result that is not a non-nil
    pointer, and a response that is nil or whose type is not assignable to
    the slot's, give an error [invalid result type: ...], the slot memory
    being as before. *)
Theorem setResultFromRPCResponse_fails_cleanly :
  (forall (m : Mem) result response,
     exists err m', setResultFromRPCResponse result response m = (Ret err, m'))
  /\ (forall value responseValue (m : Mem),
        CanSet value = false ->
        assignResult value responseValue m
          = (Ret (Some (errorString "can't assign value to result")), m))
  /\ (forall (m : Mem) result response,
        isConcrete result = true ->
        isValidPointer result = false ->
        exists r,
          setResultFromRPCResponse result response m
            = (Ret (Some (errorString ("invalid result type: " +:+ PanicValue_String r))), m))
  /\ (forall (m : Mem) pt T l response,
        underlying pt = TPtr T ->
        isRawBytes T = false ->
        (forall t v, response = Some (t, v) -> assignable T t = false) ->
        exists r,
          setResultFromRPCResponse (Some (pt, VPtr (Some l))) response m
            = (Ret (Some (errorString ("invalid result type: " +:+ PanicValue_String r))), m)).
Proof.
  split; [|split; [|split]].
  - intros. apply setResultFromRPCResponse_returns.
  - intros value responseValue m H. unfold assignResult. by rewrite H.
  - intros. by apply setResultFromRPCResponse_invalid_pointer.
  - intros m pt T l response H HT Hna.
    rewrite (setResultFromRPCResponse_pointer m pt T l response H), HT.
    destruct response as [[t v]|]; [|eauto].
    rewrite (Hna t v eq_refl). eauto.
Qed.

End Properties.

(** * Further properties of the client *)

Section MoreProperties.
Context `{CO : Collaborators} {RP : RouterPolicy}.

Ltac step :=
  unfold bind, ret, gets, modify, panic, liftEnv, liftMem, of_outcome,
    modify_client, emit, CountCall, log_ in *; simpl in *.

(** *** The ways a lookup goes *)

Lemma getClientUsingCache_cases chainID (s : State) :
  (exists p,
     rpcClients (client s) !! chainID = Some p
     /\ getClientUsingCache chainID s = (Ret (p, None), s))
  \/ (rpcClients (client s) !! chainID = None
      /\ Manager_Find (NetworkManager (client s)) chainID (world (env s)) = None
      /\ getClientUsingCache chainID s =
           (Ret (if bool_decide (UpstreamChainID (client s) = chainID)
                 then (upstream (client s), None)
                 else (None, Some (errorString
                                     ("could not find network: " +:+ pretty chainID)))),
            logged [EvFind chainID] s))
  \/ (rpcClients (client s) !! chainID = None
      /\ exists n err s',
          Manager_Find (NetworkManager (client s)) chainID (world (env s)) = Some n
          /\ getClientUsingCache chainID s = (Ret (None, Some (dialError err)), s')
          /\ client s' = client s
          /\ endpoints (env s') = endpoints (env s)
          /\ mem (env s') = mem (env s))
  \/ (rpcClients (client s) !! chainID = None
      /\ exists n conn fb w,
          Manager_Find (NetworkManager (client s)) chainID (world (env s)) = Some n
          /\ getClientUsingCache chainID s =
               (Ret (Some (length (endpoints (env s))), None),
                dialed chainID n conn fb w s)).
Proof.
  destruct (rpcClients (client s) !! chainID) as [p|] eqn:Hc.
  { left. exists p. split; [done|]. by apply getClientUsingCache_cached. }
  right.
  destruct (Manager_Find (NetworkManager (client s)) chainID (world (env s)))
    as [n|] eqn:Hf.
  2:{ left. split; [done|]. split; [done|]. by apply getClientUsingCache_no_network. }
  right.
  destruct (gethrpc_Dial (RPCURL n) (world (env s))) as [[conn|err] w1] eqn:Hd.
  2:{ left. split; [done|]. eexists n, err, _. split; [done|].
      split; [by apply (getClientUsingCache_primary_fails chainID s n err w1)|done]. }
  destruct (dial_fallback n w1) as [[fb|err] w2] eqn:Hfb.
  - right. split; [done|]. exists n, conn, fb, w2. split; [done|].
    by apply (getClientUsingCache_dials chainID s n conn fb w1 w2).
  - left. split; [done|]. unfold dial_fallback in Hfb.
    case_bool_decide as Hlen; [|done].
    destruct (gethrpc_Dial (FallbackURL n) w1) as [[fc|err'] w'] eqn:Hd2; [done|].
    injection Hfb as <- <-.
    eexists n, err', _. split; [done|].
    split; [by apply (getClientUsingCache_fallback_fails chainID s n conn err' w1 w')|done].
Qed.

Lemma getClientUsingCache_returns chainID (s : State) :
  exists r s', getClientUsingCache chainID s = (Ret r, s').
Proof.
  destruct (getClientUsingCache_cases chainID s)
    as [(p & _ & ->) | [(_ & _ & ->) | [(_ & n & err & s' & _ & -> & _)
       | (_ & n & conn & fb & w & _ & ->)]]]; eauto.
Qed.

Lemma keeps_refl (s : State) : keeps s s.
Proof. unfold keeps. repeat split; done. Qed.

Lemma keeps_trans (s1 s2 s3 : State) : keeps s1 s2 -> keeps s2 s3 -> keeps s1 s3.
Proof.
  unfold keeps. intros (?&?&?&?&?&?&?&?&?&?&?) (?&?&?&?&?&?&?&?&?&?&?).
  repeat split; try congruence; by etrans.
Qed.

Lemma keeps_logged evs (s : State) : keeps s (logged evs s).
Proof. unfold keeps. repeat split; done. Qed.

Lemma keeps_dialed chainID n conn fb w (s : State) :
  rpcClients (client s) !! chainID = None ->
  keeps s (dialed chainID n conn fb w s).
Proof.
  intros Hc. unfold keeps. simpl. repeat split; try done.
  - by apply insert_subseteq.
  - by eexists.
Qed.

(** A lookup keeps what the client holds: no cache entry is evicted or
    rebound, no endpoint record moves, no other field of the client and no
    result slot is written; the one cache key it may add is the chain id
    asked for. *)
Theorem getClientUsingCache_keeps chainID (s : State) :
  keeps s (snd (getClientUsingCache chainID s))
  /\ forall id,
      id <> chainID ->
      rpcClients (client (snd (getClientUsingCache chainID s))) !! id
      = rpcClients (client s) !! id.
Proof.
  destruct (getClientUsingCache_cases chainID s)
    as [(p & _ & ->) | [(_ & _ & ->) | [(_ & n & err & s' & _ & -> & Hcl & He & Hm)
       | (Hc & n & conn & fb & w & _ & ->)]]]; simpl.
  - split; [apply keeps_refl|done].
  - split; [apply keeps_logged|done].
  - split; [|by rewrite Hcl]. unfold keeps. rewrite Hcl, He, Hm. repeat split; done.
  - split; [by apply keeps_dialed|]. intros id Hne. by rewrite lookup_insert_ne.
Qed.

(** A lookup without error gives what the cache holds afterwards, or the
    upstream when the chain is the upstream's and has no configuration. *)
Lemma getClientUsingCache_result chainID (s : State) p s' :
  getClientUsingCache chainID s = (Ret (p, None), s') ->
  rpcClients (client s') !! chainID = Some p
  \/ (rpcClients (client s) !! chainID = None
      /\ Manager_Find (NetworkManager (client s)) chainID (world (env s)) = None
      /\ UpstreamChainID (client s) = chainID
      /\ p = upstream (client s)
      /\ s' = logged [EvFind chainID] s).
Proof.
  destruct (getClientUsingCache_cases chainID s)
    as [(q & Hq & ->) | [(Hc & Hf & ->) | [(_ & n & err & s1 & _ & -> & _)
       | (Hc & n & conn & fb & w & _ & ->)]]]; intros H.
  - injection H as <- <-. by left.
  - case_bool_decide; [|done]. injection H as <- <-. by right.
  - done.
  - injection H as <- <-. left. simpl. apply lookup_insert_eq.
Qed.

(** [EthClient] is the lookup itself: the lookup never returns an endpoint
    together with an error. *)
Theorem EthClient_is_lookup chainID (s : State) :
  EthClient chainID s = getClientUsingCache chainID s.
Proof.
  unfold EthClient. unfold bind at 1.
  destruct (getClientUsingCache_cases chainID s)
    as [(q & Hq & ->) | [(Hc & Hf & ->) | [(_ & n & err & s1 & _ & -> & _)
       | (Hc & n & conn & fb & w & _ & ->)]]]; try done.
  by case_bool_decide.
Qed.

(** *** Construction *)

(** The client [NewClient] makes with the upstream disabled and enabled. *)
(** What [NewClient] has logged before it looks at the upstream: the
    initialisation of the network manager and, when that failed, the error
    message. *)
Lemma NewClient_cases local_ upstreamChainID up networks db (e : Env) :
  exists w0 t0,
    w0 = snd (Manager_Init (network_NewManager db) networks (world e))
    /\ t0 = trace e ++ EvInit networks
             :: match fst (Manager_Init (network_NewManager db) networks (world e)) with
                | Some _ => [EvLog "error" "Network manager failed to initialize"]
                | None => []
                end
    /\ NewClient local_ upstreamChainID up networks db e =
      if Enabled up then
        match gethrpc_Dial (URL up) w0 with
        | (inl conn, w1) =>
            (Ret (Some {| upstreamEnabled := true; upstreamURL := URL up;
                          UpstreamChainID := upstreamChainID; local := local_;
                          upstream := Some (length (endpoints e)); rpcClients := ∅;
                          router_ := Some (newRouter true);
                          NetworkManager := network_NewManager db;
                          handlers := ∅ |}, None),
             {| endpoints := endpoints e
                  ++ [{| cwf_ChainID := upstreamChainID; cwf_main := conn;
                         cwf_fallback := None |}];
                mem := mem e; world := w1; trace := t0 ++ [EvDial (URL up)] |})
        | (inr err, w1) =>
            (Ret (None, Some (dialError err)),
             {| endpoints := endpoints e; mem := mem e; world := w1;
                trace := t0 ++ [EvDial (URL up)] |})
        end
      else
        (Ret (Some {| upstreamEnabled := false; upstreamURL := "";
                      UpstreamChainID := 0%N; local := local_;
                      upstream := None; rpcClients := ∅;
                      router_ := Some (newRouter false);
                      NetworkManager := network_NewManager db;
                      handlers := ∅ |}, None),
         {| endpoints := endpoints e; mem := mem e; world := w0; trace := t0 |}).
Proof.
  unfold NewClient, Init, Dial, chain_NewSimpleClient, new_endpoint. step.
  destruct (Manager_Init (network_NewManager db) networks (world e)) as [ierr w0].
  simpl. exists w0.
  destruct ierr as [ie|]; simpl.
  - eexists. split; [done|]. split; [done|].
    destruct (Enabled up) eqn:HE; simpl; [|by rewrite <- app_assoc].
    destruct (gethrpc_Dial (URL up) w0) as [[conn|err] w1]; simpl;
      by rewrite <- !app_assoc.
  - eexists. split; [done|]. split; [done|].
    destruct (Enabled up) eqn:HE; simpl; [|done].
    destruct (gethrpc_Dial (URL up) w0) as [[conn|err] w1]; simpl; done.
Qed.

(** [NewClient] fails only when the upstream is enabled and its URL cannot
    be dialed, with the error [dial upstream server: ...] and no endpoint
    record made.  An error of [NetworkManager.Init] never fails it: what it
    leaves is the message [Network manager failed to initialize] in the log,
    after which the construction goes on in the world the initialisation
    left. *)
Theorem NewClient_fails_only_on_dial local_ upstreamChainID up networks db (e : Env) :
  let init := Manager_Init (network_NewManager db) networks (world e) in
  let r := NewClient local_ upstreamChainID up networks db e in
  match Enabled up, fst (gethrpc_Dial (URL up) (snd init)) with
  | true, inr err =>
      fst r = Ret (None, Some (dialError err))
      /\ endpoints (snd r) = endpoints e
  | _, _ => exists c, fst r = Ret (Some c, None)
  end
  /\ trace (snd r)
     = trace e
       ++ EvInit networks
          :: match fst init with
             | Some _ => [EvLog "error" "Network manager failed to initialize"]
             | None => []
             end
       ++ (if Enabled up then [EvDial (URL up)] else [])
  /\ world (snd r)
     = (if Enabled up then snd (gethrpc_Dial (URL up) (snd init)) else snd init).
Proof.
  intros init r. subst r.
  destruct (NewClient_cases local_ upstreamChainID up networks db e)
    as (w0 & t0 & -> & -> & ->). fold init.
  destruct (Enabled up).
  - destruct (gethrpc_Dial (URL up) (snd init)) as [[conn|err] w1]; simpl.
    + split; [eauto|]. split; [|done]. rewrite <- app_assoc. done.
    + split; [eauto|]. split; [|done]. rewrite <- app_assoc. done.
  - simpl. split; [eauto|]. split; [|done]. by rewrite app_nil_r.
Qed.

(** The client [NewClient] returns: an empty cache and an empty handler
    registry, the local connection and the network manager it was given, a
    router made with the upstream flag, and an upstream endpoint exactly when
    the upstream is enabled: a new record on the connection the dial of the
    upstream URL gave, without fallback and of the chain id passed; every
    pointer of the client is valid. *)
Theorem NewClient_client local_ upstreamChainID up networks db (e : Env) c e' :
  NewClient local_ upstreamChainID up networks db e = (Ret (Some c, None), e') ->
  rpcClients c = ∅
  /\ handlers c = ∅
  /\ local c = local_
  /\ NetworkManager c = network_NewManager db
  /\ upstreamEnabled c = Enabled up
  /\ router_ c = Some (newRouter (Enabled up))
  /\ (if Enabled up then
        upstream c = Some (length (endpoints e))
        /\ UpstreamChainID c = upstreamChainID
        /\ upstreamURL c = URL up
        /\ exists conn,
            fst (gethrpc_Dial (URL up)
                   (snd (Manager_Init (network_NewManager db) networks (world e))))
            = inl conn
            /\ endpoints e' = endpoints e
                 ++ [{| cwf_ChainID := upstreamChainID; cwf_main := conn;
                        cwf_fallback := None |}]
      else
        upstream c = None /\ UpstreamChainID c = 0%N /\ upstreamURL c = ""
        /\ endpoints e' = endpoints e)
  /\ mem e' = mem e
  /\ cache_wf {| client := c; env := e' |}.
Proof.
  destruct (NewClient_cases local_ upstreamChainID up networks db e)
    as (w0 & t0 & -> & _ & ->).
  destruct (Enabled up).
  - destruct (gethrpc_Dial (URL up) _) as [[conn|err] w1]; [|done].
    intros [= <- <-]. simpl. repeat split; try done; eauto.
    intros a [= <-]. eexists. simpl.
    rewrite lookup_app_r by done. rewrite Nat.sub_diag. done.
  - intros [= <- <-]. simpl. repeat split; done.
Qed.

(** *** The invariant of the pointers *)

Lemma cache_wf_logged evs (s : State) : cache_wf s -> cache_wf (logged evs s).
Proof. done. Qed.

Lemma lookup_grow {A} (l k : list A) a x : l !! a = Some x -> (l ++ k) !! a = Some x.
Proof. intros H. by apply lookup_app_l_Some. Qed.

Lemma getClientUsingCache_cache_wf chainID (s : State) :
  cache_wf s -> cache_wf (snd (getClientUsingCache chainID s)).
Proof.
  intros [Hcache Hup].
  destruct (getClientUsingCache_cases chainID s)
    as [(q & Hq & ->) | [(Hc & Hf & ->) | [(_ & n & err & s1 & _ & -> & Hcl & He & _)
       | (Hc & n & conn & fb & w & _ & ->)]]]; simpl.
  - done.
  - done.
  - unfold cache_wf. by rewrite Hcl, He.
  - split; simpl.
    + intros id p Hl. destruct (decide (id = chainID)) as [->|Hne].
      * rewrite lookup_insert_eq in Hl. injection Hl as <-.
        eexists _, _. split; [done|]. split.
        { rewrite lookup_app_r by done. rewrite Nat.sub_diag. reflexivity. }
        done.
      * rewrite lookup_insert_ne in Hl by done.
        destruct (Hcache id p Hl) as (a & record & -> & Ha & Hid).
        exists a, record. split; [done|]. split; [by apply lookup_grow|done].
    + intros a Ha. destruct (Hup a Ha) as (record & Hr & Hid & Hfb).
      exists record. split; [by apply lookup_grow|done].
Qed.

Lemma UpdateUpstreamURL_cache_wf url (s : State) :
  cache_wf s -> cache_wf (snd (UpdateUpstreamURL url s)).
Proof.
  intros [Hcache Hup].
  destruct (UpdateUpstreamURL_cases url s)
    as [(_ & ->) | [(p & err & w & _ & _ & ->) | (p & conn & w & _ & _ & -> & _)]];
    simpl; [done|done|].
  split; simpl.
  - intros id q Hl. destruct (Hcache id q Hl) as (a & record & -> & Ha & Hid).
    exists a, record. split; [done|]. split; [by apply lookup_grow|done].
  - intros a [= <-]. eexists. rewrite lookup_app_r by done.
    rewrite Nat.sub_diag. done.
Qed.

Lemma EthClients_loop_cache_wf chainIDs clients (s : State) :
  cache_wf s -> cache_wf (snd (EthClients_loop chainIDs clients s)).
Proof.
  revert clients s. induction chainIDs as [|chainID rest IH]; intros clients s Hwf.
  - done.
  - simpl. unfold bind at 1.
    pose proof (getClientUsingCache_cache_wf chainID s Hwf) as Hwf1.
    destruct (getClientUsingCache chainID s) as [[[p [e|]]|r] s1]; simpl in *;
      try done.
    by apply IH.
Qed.

(** The pointers of the client stay valid: when every cache entry points
    to a record of its chain and the upstream to a record of the upstream
    chain, the same holds after a lookup, after [EthClients], after
    [UpdateUpstreamURL] and after [RegisterHandler]. *)
Theorem cache_wf_preserved (s : State) :
  cache_wf s ->
  (forall chainID, cache_wf (snd (getClientUsingCache chainID s)))
  /\ (forall chainIDs, cache_wf (snd (EthClients chainIDs s)))
  /\ (forall url, cache_wf (snd (UpdateUpstreamURL url s)))
  /\ (forall method h, cache_wf (snd (RegisterHandler method h s))).
Proof.
  intros Hwf. split; [|split; [|split]].
  - intros. by apply getClientUsingCache_cache_wf.
  - intros. by apply EthClients_loop_cache_wf.
  - intros. by apply UpdateUpstreamURL_cache_wf.
  - intros. done.
Qed.

(** With valid pointers, a lookup without error gives a pointer to a
    record of the chain asked for; it gives nil only for the upstream's
    chain id, not cached and without configuration, when there is no
    upstream. *)
Theorem getClientUsingCache_endpoint chainID (s : State) p s' :
  cache_wf s ->
  getClientUsingCache chainID s = (Ret (p, None), s') ->
  match p with
  | Some a =>
      exists record,
        endpoints (env s') !! a = Some record /\ cwf_ChainID record = chainID
  | None =>
      upstream (client s) = None
      /\ UpstreamChainID (client s) = chainID
      /\ rpcClients (client s) !! chainID = None
      /\ Manager_Find (NetworkManager (client s)) chainID (world (env s)) = None
  end.
Proof.
  intros Hwf H.
  pose proof (getClientUsingCache_cache_wf chainID s Hwf) as Hwf'.
  rewrite H in Hwf'. simpl in Hwf'.
  destruct (getClientUsingCache_result chainID s p s' H)
    as [Hl | (Hc & Hf & Hid & -> & ->)].
  - destruct Hwf' as [Hcache _].
    destruct (Hcache chainID p Hl) as (a & record & -> & Ha & Hr). eauto.
  - destruct (upstream (client s)) as [a|] eqn:Hu; [|done].
    destruct Hwf as [_ Hup]. destruct (Hup a Hu) as (record & Ha & Hr & _).
    exists record. simpl. split; [done|congruence].
Qed.

(** A lookup dials at most twice; for a chain id that is cached, or that
    has no configuration, it dials nothing, leaves the outside world alone and
    makes no endpoint record. *)
Theorem getClientUsingCache_dial_bound chainID (s : State) :
  let s' := snd (getClientUsingCache chainID s) in
  dials (trace (env s)) <= dials (trace (env s'))
  /\ dials (trace (env s')) <= dials (trace (env s)) + 2
  /\ (is_Some (rpcClients (client s) !! chainID)
      \/ Manager_Find (NetworkManager (client s)) chainID (world (env s)) = None ->
      dials (trace (env s')) = dials (trace (env s))
      /\ world (env s') = world (env s)
      /\ endpoints (env s') = endpoints (env s)).
Proof.
  intros s'. subst s'.
  destruct (rpcClients (client s) !! chainID) as [p|] eqn:Hc.
  { rewrite (getClientUsingCache_cached chainID s p Hc). simpl.
    split; [lia|]. split; [lia|done]. }
  destruct (Manager_Find (NetworkManager (client s)) chainID (world (env s)))
    as [n|] eqn:Hf.
  2:{ rewrite (getClientUsingCache_no_network chainID s Hc Hf). simpl.
      rewrite dials_app. change (dials [EvFind chainID]) with 0.
      split; [lia|]. split; [lia|]. intros _. split; [lia|done]. }
  assert (forall evs k, dials evs = k -> k <= 2 ->
            dials (trace (env s)) <= dials (trace (env s) ++ EvFind chainID :: evs)
            /\ dials (trace (env s) ++ EvFind chainID :: evs) <= dials (trace (env s)) + 2)
    as Hbound.
  { intros evs k <- Hk. rewrite dials_app.
    change (EvFind chainID :: evs) with ([EvFind chainID] ++ evs).
    rewrite dials_app. change (dials [EvFind chainID]) with 0. lia. }
  assert (forall P : Prop,
            is_Some (@None (option nat)) \/ Some n = None -> P) as Hno.
  { intros P [[? ?]|?]; done. }
  destruct (gethrpc_Dial (RPCURL n) (world (env s))) as [[conn|err] w1] eqn:Hd.
  2:{ rewrite (getClientUsingCache_primary_fails chainID s n err w1 Hc Hf Hd). simpl.
      destruct (Hbound [EvDial (RPCURL n)] 1) as [? ?]; [done|lia|].
      split; [done|]. split; [done|]. apply Hno. }
  destruct (dial_fallback n w1) as [[fb|err] w2] eqn:Hfb.
  - rewrite (getClientUsingCache_dials chainID s n conn fb w1 w2 Hc Hf Hd Hfb). simpl.
    destruct (Hbound (dial_events n)
                (if bool_decide (0 < String.length (FallbackURL n)) then 2 else 1))
      as [? ?]; [apply dials_dial_events|by case_bool_decide; lia|].
    split; [done|]. split; [done|]. apply Hno.
  - unfold dial_fallback in Hfb. case_bool_decide as Hlen; [|done].
    destruct (gethrpc_Dial (FallbackURL n) w1) as [[fc|err'] w'] eqn:Hd2; [done|].
    rewrite (getClientUsingCache_fallback_fails chainID s n conn err' w1 w' Hc Hf Hd Hlen Hd2).
    simpl.
    destruct (Hbound [EvDial (RPCURL n); EvDial (FallbackURL n)] 2) as [? ?];
      [done|lia|].
    split; [done|]. split; [done|]. apply Hno.
Qed.

(** *** [EthClients] *)

Lemma EthClients_loop_cached chainIDs ps clients (s : State) :
  Forall2 (fun id p => rpcClients (client s) !! id = Some p) chainIDs ps ->
  EthClients_loop chainIDs clients s = (Ret (Some (clients ++ ps), None), s).
Proof.
  intros H. revert clients. induction H as [|id p ids ps Hid _ IH]; intros clients.
  - simpl. by rewrite app_nil_r.
  - simpl. unfold bind at 1. rewrite (getClientUsingCache_cached id s p Hid).
    rewrite IH. by rewrite <- app_assoc.
Qed.

(** When every chain id asked for is cached, [EthClients] returns the
    cached endpoints in the order asked and leaves the state as it is: no
    configuration is looked up and nothing is dialed. *)
Theorem EthClients_cached chainIDs ps (s : State) :
  Forall2 (fun id p => rpcClients (client s) !! id = Some p) chainIDs ps ->
  EthClients chainIDs s = (Ret (Some ps, None), s).
Proof. intros H. by apply (EthClients_loop_cached chainIDs ps []). Qed.

Lemma EthClients_loop_success chainIDs clients (s : State) result s' :
  EthClients_loop chainIDs clients s = (Ret (Some result, None), s') ->
  exists new,
    result = clients ++ new
    /\ keeps s s'
    /\ Forall2 (fun id p =>
                  rpcClients (client s') !! id = Some p
                  \/ (p = upstream (client s) /\ UpstreamChainID (client s) = id))
         chainIDs new.
Proof.
  revert clients s. induction chainIDs as [|id rest IH]; intros clients s.
  - simpl. intros [= <- <-]. exists []. rewrite app_nil_r.
    split; [done|]. split; [apply keeps_refl|constructor].
  - simpl. unfold bind at 1.
    pose proof (getClientUsingCache_keeps id s) as [Hk _].
    destruct (getClientUsingCache id s) as [[[p [e|]]|r] s1] eqn:Hg; try done.
    simpl in Hk. intros Hrest.
    destruct (IH _ _ Hrest) as (new & -> & Hk' & Hall).
    exists (p :: new). rewrite <- app_assoc. split; [done|].
    split; [by apply (keeps_trans s s1 s')|].
    destruct Hk as (_ & _ & Hu & _ & Hid & _).
    constructor.
    + destruct (getClientUsingCache_result id s p s1 Hg) as [Hl | (_ & _ & ? & -> & _)].
      * left. destruct Hk' as (Hsub & _). by apply (lookup_weaken _ _ _ _ Hl).
      * by right.
    + eapply Forall2_impl; [exact Hall|]. simpl. intros id' p' [?|[-> <-]]; [by left|].
      right. by rewrite Hu, Hid.
Qed.

(** When [EthClients] succeeds it returns one endpoint for each chain id, in
    order: the one the cache holds for that chain afterwards, or the upstream
    for the upstream's chain id; and what the client held before is kept. *)
Theorem EthClients_success chainIDs (s : State) result s' :
  EthClients chainIDs s = (Ret (Some result, None), s') ->
  length result = length chainIDs
  /\ keeps s s'
  /\ Forall2 (fun id p =>
                rpcClients (client s') !! id = Some p
                \/ (p = upstream (client s) /\ UpstreamChainID (client s) = id))
       chainIDs result.
Proof.
  intros H. destruct (EthClients_loop_success chainIDs [] s result s' H)
    as (new & -> & Hk & Hall).
  split; [|done]. simpl. symmetry. by eapply Forall2_length.
Qed.

Lemma EthClients_loop_from chainIDs clients (s : State) :
  EthClients_loop chainIDs clients s =
    match EthClients_loop chainIDs [] s with
    | (Ret (Some cs, None), s') => (Ret (Some (clients ++ cs), None), s')
    | r => r
    end.
Proof.
  revert clients s. induction chainIDs as [|id rest IH]; intros clients s.
  - simpl. unfold ret. by rewrite app_nil_r.
  - simpl. unfold bind.
    destruct (getClientUsingCache id s) as [[[p [e|]]|r] s1]; try done.
    rewrite (IH (clients ++ [p])), (IH ([] ++ [p])).
    destruct (EthClients_loop rest [] s1) as [[[[cs|] [e|]]|r] s2]; try done.
    simpl. by rewrite <- app_assoc.
Qed.

Lemma EthClients_loop_app chainIDs1 chainIDs2 clients (s : State) :
  EthClients_loop (chainIDs1 ++ chainIDs2) clients s =
    match EthClients_loop chainIDs1 clients s with
    | (Ret (Some cs1, None), s1) => EthClients_loop chainIDs2 cs1 s1
    | r => r
    end.
Proof.
  revert clients s. induction chainIDs1 as [|id rest IH]; intros clients s.
  - done.
  - simpl. unfold bind.
    destruct (getClientUsingCache id s) as [[[p [e|]]|r] s1]; try done.
Qed.

(** [EthClients] over a concatenation is [EthClients] over the first part
    and then over the second in the state the first left; the first error
    ends the call, so the chains after it are not looked up. *)
Theorem EthClients_app chainIDs1 chainIDs2 (s : State) :
  EthClients (chainIDs1 ++ chainIDs2) s =
    match EthClients chainIDs1 s with
    | (Ret (Some cs1, None), s1) =>
        match EthClients chainIDs2 s1 with
        | (Ret (Some cs2, None), s2) => (Ret (Some (cs1 ++ cs2), None), s2)
        | r => r
        end
    | r => r
    end.
Proof.
  unfold EthClients. rewrite EthClients_loop_app.
  destruct (EthClients_loop chainIDs1 [] s) as [[[[cs1|] [e|]]|r] s1]; try done.
  apply EthClients_loop_from.
Qed.

(** *** [UpdateUpstreamURL] and the cache *)

(** [UpdateUpstreamURL] writes the upstream endpoint and its URL and
    nothing else of the client: the cache, the handlers, the router and the
    upstream chain id stay, an absent upstream stays absent and a present one
    present, the endpoint records made before stay where they are; so a chain
    id that is cached resolves to the same endpoint after the update as
    before, the upstream's own chain id included. *)
Theorem UpdateUpstreamURL_keeps_cache url (s : State) :
  let s' := snd (UpdateUpstreamURL url s) in
  rpcClients (client s') = rpcClients (client s)
  /\ handlers (client s') = handlers (client s)
  /\ router_ (client s') = router_ (client s)
  /\ upstreamEnabled (client s') = upstreamEnabled (client s)
  /\ UpstreamChainID (client s') = UpstreamChainID (client s)
  /\ mem (env s') = mem (env s)
  /\ endpoints (env s) `prefix_of` endpoints (env s')
  /\ (upstream (client s') = None <-> upstream (client s) = None)
  /\ forall chainID p,
      rpcClients (client s) !! chainID = Some p ->
      getClientUsingCache chainID s' = (Ret (p, None), s').
Proof.
  intros s'. subst s'.
  destruct (UpdateUpstreamURL_cases url s)
    as [(Hu & ->) | [(p & err & w & Hu & _ & ->) | (p & conn & w & Hu & _ & -> & _)]];
    simpl.
  - repeat split; try done. intros. by apply getClientUsingCache_cached.
  - repeat split; try done; try (by rewrite Hu).
    intros. by apply getClientUsingCache_cached.
  - repeat split; try done; try (by rewrite Hu); try (by eexists).
    intros. by apply getClientUsingCache_cached.
Qed.

(** After a successful [UpdateUpstreamURL] a lookup that falls through to
    the upstream gives the new endpoint record: the new connection, the
    upstream chain id, no fallback. *)
Theorem UpdateUpstreamURL_then_lookup url (s : State) p conn w :
  upstream (client s) = Some p ->
  gethrpc_Dial url (world (env s)) = (inl conn, w) ->
  rpcClients (client s) !! UpstreamChainID (client s) = None ->
  Manager_Find (NetworkManager (client s)) (UpstreamChainID (client s)) w = None ->
  let s' := snd (UpdateUpstreamURL url s) in
  upstreamURL (client s') = url
  /\ exists a,
      fst (getClientUsingCache (UpstreamChainID (client s)) s') = Ret (Some a, None)
      /\ endpoints (env s') !! a
         = Some {| cwf_ChainID := UpstreamChainID (client s); cwf_main := conn;
                   cwf_fallback := None |}.
Proof.
  intros Hu Hd Hc Hf s'. subst s'.
  destruct (UpdateUpstreamURL_cases url s)
    as [(Hu' & _) | [(p' & err & w' & _ & Hd' & _) | (p' & conn' & w' & _ & Hd' & -> & _)]];
    [congruence|congruence|].
  rewrite Hd in Hd'. injection Hd' as <- <-. simpl. split; [done|].
  exists (length (endpoints (env s))).
  rewrite getClientUsingCache_no_network by done. simpl.
  rewrite bool_decide_eq_true_2 by done. split; [done|].
  rewrite lookup_app_r by done. by rewrite Nat.sub_diag.
Qed.

(** *** Dispatch *)

Lemma CallContextIgnoringLocalHandlers_unfold ctx result chainID method args
    (s : State) r :
  router_ (client s) = Some r ->
  CallContextIgnoringLocalHandlers ctx result chainID method args s =
    if routeBlocked r method then (Ret (Some ErrMethodNotFound), s)
    else if routeRemote r method then
      match getClientUsingCache chainID s with
      | (Ret (_, Some e), s1) => (Ret (Some e), s1)
      | (Ret (p, None), s1) => endpoint_CallContext p ctx result method args s1
      | (Panic x, s1) => (Panic x, s1)
      end
    else
      match local (client s) with
      | None =>
          (Ret (Some (errorString "missing local JSON-RPC endpoint")),
           logged [EvLog "warn" "Local JSON-RPC endpoint missing"] s)
      | Some conn =>
          gethrpc_CallContext conn ctx result method args (logged [EvLocalCall method] s)
      end.
Proof.
  intros Hr. unfold CallContextIgnoringLocalHandlers.
  unfold bind at 1. rewrite (router_routeBlocked_eq s r) by done.
  destruct (routeBlocked r method); [done|].
  unfold bind at 1. rewrite (router_routeRemote_eq s r) by done.
  destruct (routeRemote r method).
  - unfold bind at 1.
    destruct (getClientUsingCache chainID s) as [[[p [e|]]|x] s1]; done.
  - unfold bind at 1. unfold gets at 1.
    destruct (local (client s)) as [conn|]; done.
Qed.

(** A method that is neither blocked nor remote and has no handler, on a
    client without local endpoint: [CallContext] returns the error
    [missing local JSON-RPC endpoint]; the call is counted and a warning
    logged, and that is all: no configuration lookup, no dial, no transport
    call, the client and the result slots as before. *)
Theorem CallContext_missing_local ctx result chainID method args (s : State) r :
  router_ (client s) = Some r ->
  routeBlocked r method = false ->
  routeRemote r method = false ->
  handlers (client s) !! method = None ->
  local (client s) = None ->
  CallContext ctx result chainID method args s
  = (Ret (Some (errorString "missing local JSON-RPC endpoint")),
     logged [EvCountCall method; EvLog "warn" "Local JSON-RPC endpoint missing"] s).
Proof.
  intros Hr Hb Hrem Hh Hl.
  rewrite (CallContext_unfold ctx result chainID method args s r Hr), Hb, Hh.
  rewrite (CallContextIgnoringLocalHandlers_unfold _ _ _ _ _ _ r) by done.
  rewrite Hb, Hrem. simpl. rewrite Hl.
  unfold logged, set_env, set_trace. simpl. by rewrite <- app_assoc.
Qed.

(** A remote method whose endpoint lookup fails: the error of the lookup
    is returned as it is and no transport is called, the state being the one
    the lookup left, whether handlers are registered or not. *)
Theorem CallContextIgnoringLocalHandlers_lookup_error ctx result chainID method args
    (s : State) r p e s1 :
  router_ (client s) = Some r ->
  routeBlocked r method = false ->
  routeRemote r method = true ->
  getClientUsingCache chainID s = (Ret (p, Some e), s1) ->
  CallContextIgnoringLocalHandlers ctx result chainID method args s = (Ret (Some e), s1)
  /\ keeps s s1.
Proof.
  intros Hr Hb Hrem Hg.
  rewrite (CallContextIgnoringLocalHandlers_unfold _ _ _ _ _ _ r) by done.
  rewrite Hb, Hrem, Hg. split; [done|].
  pose proof (getClientUsingCache_keeps chainID s) as [Hk _]. by rewrite Hg in Hk.
Qed.

(** A remote method whose endpoint lookup succeeds, on a client with valid
    pointers: the call goes to the transport of the endpoint record of the
    chain asked for, in the state the lookup left. *)
Theorem CallContextIgnoringLocalHandlers_remote ctx result chainID method args
    (s : State) r a s1 :
  cache_wf s ->
  router_ (client s) = Some r ->
  routeBlocked r method = false ->
  routeRemote r method = true ->
  getClientUsingCache chainID s = (Ret (Some a, None), s1) ->
  exists record,
    endpoints (env s1) !! a = Some record
    /\ cwf_ChainID record = chainID
    /\ CallContextIgnoringLocalHandlers ctx result chainID method args s
       = chain_CallContext record ctx result method args (logged [EvChainCall a method] s1).
Proof.
  intros Hwf Hr Hb Hrem Hg.
  destruct (getClientUsingCache_endpoint chainID s (Some a) s1 Hwf Hg)
    as (record & Ha & Hid).
  exists record. split; [done|]. split; [done|].
  rewrite (CallContextIgnoringLocalHandlers_unfold _ _ _ _ _ _ r) by done.
  rewrite Hb, Hrem, Hg. unfold endpoint_CallContext.
  unfold bind at 1. unfold gets at 1. rewrite Ha.
  unfold bind. unfold liftEnv, emit, modify. done.
Qed.

(** *** The handler registry *)

(** The last registration for a method wins and is what [CallContext] runs;
    the handlers of the other methods and everything else stay. *)
Theorem RegisterHandler_last_wins method h1 h2 (s : State) :
  let s2 := snd (RegisterHandler method h2 (snd (RegisterHandler method h1 s))) in
  fst (handler method s2) = Ret (Some h2)
  /\ s2 = snd (RegisterHandler method h2 s)
  /\ (forall m, m <> method -> fst (handler m s2) = fst (handler m s))
  /\ rpcClients (client s2) = rpcClients (client s)
  /\ upstream (client s2) = upstream (client s)
  /\ router_ (client s2) = router_ (client s)
  /\ env s2 = env s
  /\ forall ctx result chainID args r,
      router_ (client s) = Some r ->
      routeBlocked r method = false ->
      CallContext ctx result chainID method args s2
      = callMethod ctx result chainID h2 args (logged [EvCountCall method] s2).
Proof.
  intros s2. subst s2. unfold RegisterHandler, handler. step.
  split; [by rewrite lookup_insert_eq|].
  split; [unfold set_client, set_handlers; simpl; by rewrite insert_insert_eq|].
  split; [intros m Hne; by rewrite !lookup_insert_ne|].
  do 4 (split; [done|]).
  intros ctx result chainID args r Hr Hb.
  apply (CallContext_handler_path _ _ _ _ _ _ r); try done.
  simpl. apply lookup_insert_eq.
Qed.

(** With a nil result, [Call] on a method with a handler returns what the
    handler returned as error and ends in the state the handler left: the
    response is dropped and nothing is bound, so no binding error arises. *)
Theorem Call_nil_result background chainID method args (s : State) r h :
  router_ (client s) = Some r ->
  routeBlocked r method = false ->
  handlers (client s) !! method = Some h ->
  Call background None chainID method args s =
    match run_handler h background chainID args (logged [EvCountCall method] s) with
    | (Ret (_, err), s1) => (Ret err, s1)
    | (Panic x, s1) => (Panic x, s1)
    end.
Proof.
  intros Hr Hb Hh. unfold Call.
  rewrite (CallContext_handler_path _ _ _ _ _ _ r h) by done.
  rewrite callMethod_unfold.
  destruct (run_handler h background chainID args (logged [EvCountCall method] s))
    as [[[response [e|]]|x] s1]; done.
Qed.

(** A handler that returns a nil response without error, called with a
    result pointer to a slot that is neither [[]byte] nor [json.RawMessage]:
    the call fails with [invalid result type: reflect: call of
    reflect.Value.Set on zero Value], whatever the type of the slot, and the
    state is the one the handler left. *)
Theorem callMethod_nil_response ctx chainID h args (s : State) pt T l s1 :
  run_handler h ctx chainID args s = (Ret (None, None), s1) ->
  underlying pt = TPtr T ->
  isRawBytes T = false ->
  callMethod ctx (Some (pt, VPtr (Some l))) chainID h args s
  = (Ret (Some (errorString
        "invalid result type: reflect: call of reflect.Value.Set on zero Value")), s1).
Proof.
  intros Hrun Hpt HT. rewrite callMethod_unfold, Hrun.
  rewrite (setResultFromRPCResponse_pointer _ pt T l None Hpt), HT.
  by rewrite with_mem_same.
Qed.

(** *** The binder *)

Lemma not_interface_underlying t :
  kindOf t <> Interface -> forall ms, underlying t <> TInterface ms.
Proof. unfold kindOf. intros H ms E. by rewrite E in H. Qed.

(** A slot of type [interface{}] takes every response that is not nil: the
    binder succeeds and the slot holds the response with its dynamic type. *)
Theorem setResultFromRPCResponse_any_slot (m : Mem) pt l t v :
  underlying pt = TPtr T_any ->
  isConcrete (Some (t, v)) = true ->
  setResultFromRPCResponse (Some (pt, VPtr (Some l))) (Some (t, v)) m
  = (Ret None, <[l := VIface (Some (t, v))]> m).
Proof.
  intros Hpt Hc. simpl in Hc. apply negb_true_iff, bool_decide_eq_false in Hc.
  rewrite (setResultFromRPCResponse_pointer m pt T_any l (Some (t, v)) Hpt).
  change (isRawBytes T_any) with false. cbv iota.
  assert (directlyAssignable T_any t = false) as Hd.
  { unfold directlyAssignable.
    rewrite bool_decide_eq_false_2 by (intros <-; by apply Hc).
    change (hasName T_any) with false. cbn [andb orb].
    rewrite (bool_decide_eq_false_2 (kindOf T_any = kindOf t)); [done|].
    intros E. apply Hc. by rewrite <- E. }
  unfold assignable, slotValue. rewrite Hd. cbn.
  unfold valueInterface.
  pose proof (not_interface_underlying t Hc) as Hn.
  destruct (underlying t); try done. by destruct (Hn methods).
Qed.

Ltac binder :=
  unfold setResultFromRPCResponse, recover_invalid_result, assignResult,
    bind, ret, gets, modify, of_outcome; cbn [id].

(** A result that is no non-nil pointer makes the binder fail with the
    memory as it was. *)
Lemma setResultFromRPCResponse_no_pointer (m : Mem) result response :
  isValidPointer result = false ->
  exists e, setResultFromRPCResponse result response m = (Ret (Some e), m).
Proof.
  intros Hv. destruct result as [[t v]|]; [|binder; simpl; eauto].
  binder. cbn [ValueOf Elem load].
  destruct (underlying t) eqn:E; try (simpl; eauto; fail).
  - destruct v as [| | | | | | | | | |[[t' v']|]|]; try (simpl; eauto; fail).
    cbn [Type_]. destruct (isRawBytes t').
    + destruct (json_Marshal m response) as [[data|err]|x]; simpl; eauto.
    + simpl. eauto.
  - destruct v as [| | | | | | | |[l|]| | |]; try (simpl; eauto; fail).
    simpl in Hv. by rewrite E in Hv.
Qed.

(** The binder writes at most one variable: when it fails the memory is as
    it was, and when it succeeds the result is a non-nil pointer and the
    memory differs at most in the variable it points to. *)
Theorem setResultFromRPCResponse_writes_one_slot (m : Mem) result response :
  let r := setResultFromRPCResponse result response m in
  (fst r <> Ret None -> snd r = m)
  /\ (fst r = Ret None ->
      exists pt T l x,
        result = Some (pt, VPtr (Some l))
        /\ underlying pt = TPtr T
        /\ snd r = <[l := x]> m
        /\ forall l', l' <> l -> snd r !! l' = m !! l').
Proof.
  intros r. subst r.
  destruct (isValidPointer result) eqn:Hv.
  - destruct result as [[pt v]|]; [|done]. simpl in Hv.
    destruct v as [| | | | | | | |[l|]| | |]; try done.
    destruct (underlying pt) as [| | | | | |T| | |] eqn:Hpt; try done.
    rewrite (setResultFromRPCResponse_pointer m pt T l response Hpt).
    destruct (isRawBytes T).
    + destruct (json_Marshal m response) as [[data|err]|x]; simpl.
      * split; [done|]. intros _. exists pt, T, l, (bytesVal data).
        repeat split; try done. intros l' Hne. by rewrite lookup_insert_ne.
      * split; done.
      * split; done.
    + destruct response as [[t v]|]; simpl; [|split; done].
      destruct (assignable T t); simpl; [|split; done].
      split; [done|]. intros _. exists pt, T, l, (slotValue T t v).
      repeat split; try done. intros l' Hne. by rewrite lookup_insert_ne.
  - destruct (setResultFromRPCResponse_no_pointer m result response Hv) as [e ->].
    simpl. split; done.
Qed.

End MoreProperties.

(** * The properties on the sample platform *)

Import Sample.
#[local] Existing Instances sample_platform sample_collaborators sample_policy.

(** The blocked method of the sample policy, with a handler registered for
    it all the same. *)
Lemma CallContext_blocked_witness :
  let s := snd (RegisterHandler "shh_getPrivateKey" (Answer None) state_on) in
  handlers (client s) !! "shh_getPrivateKey" = Some (Answer None)
  /\ CallContext tt int_slot 1 "shh_getPrivateKey" [] s
     = (Ret (Some ErrMethodNotFound), logged [EvCountCall "shh_getPrivateKey"] s)
  /\ CallContextIgnoringLocalHandlers tt int_slot 1 "shh_getPrivateKey" [] s
     = (Ret (Some ErrMethodNotFound), s).
Proof.
  intros s.
  pose proof (CallContext_blocked tt int_slot 1%N "shh_getPrivateKey" [] s
                (newRouter true) eq_refl eq_refl) as (H1 & H2 & _).
  split; [reflexivity|]. split; assumption.
Defined.

(** A handler for a method the sample policy sends to a chain endpoint. *)
Lemma CallContext_registered_handler_witness :
  let s := snd (RegisterHandler "eth_getBalance" (Answer (Some (T_int, VInt 42))) state_on) in
  CallContext tt int_slot 1 "eth_getBalance" [] s
  = callMethod tt int_slot 1 (Answer (Some (T_int, VInt 42))) []
      (logged [EvCountCall "eth_getBalance"] s).
Proof.
  intros s.
  exact (proj1 (CallContext_registered_handler tt int_slot 1%N "eth_getBalance" [] s
                  (newRouter true) (Answer (Some (T_int, VInt 42)))
                  eq_refl eq_refl eq_refl)).
Defined.

(** A handler that fails. *)
Lemma CallContext_handler_error_witness :
  let s := snd (RegisterHandler "eth_sendTransaction" (Fail insufficient_funds) state_on) in
  CallContext tt int_slot 1 "eth_sendTransaction" [] s
  = (Ret (Some insufficient_funds), logged [EvCountCall "eth_sendTransaction"] s).
Proof.
  intros s.
  exact (proj1 (CallContext_handler_error tt int_slot 1%N "eth_sendTransaction" [] s
                  (newRouter true) (Fail insufficient_funds)
                  (Ret (None, Some insufficient_funds))
                  (logged [EvCountCall "eth_sendTransaction"] s)
                  eq_refl eq_refl eq_refl eq_refl) None insufficient_funds eq_refl).
Defined.

(** C3 as stated fails on chain 1 of the sample world, whose configuration
    declares a fallback URL: the first lookup dials twice. *)
Lemma lookup_twice_dials_once_counterexample :
  ~ lookup_twice_dials_once 1 state_on.
Proof.
  intros H.
  destruct (H network1 "https://mainnet.example" (Some "https://backup.example")
              (world (env state_on)) (world (env state_on)) eq_refl eq_refl eq_refl)
    as (p & s1 & s2 & H1 & H2 & H3).
  vm_compute in H1. injection H1 as ? ?. subst p s1.
  vm_compute in H2. injection H2 as ?. subst s2.
  vm_compute in H3. discriminate H3.
Qed.

Lemma getClientUsingCache_twice_witness :
  exists s1,
    getClientUsingCache 1 state_on = (Ret (Some 1, None), s1)
    /\ getClientUsingCache 1 s1 = (Ret (Some 1, None), s1)
    /\ dials (trace (env s1)) = dials (trace (env state_on)) + 2.
Proof.
  destruct (getClientUsingCache_twice 1%N state_on network1 "https://mainnet.example"
              (Some "https://backup.example")
              (world (env state_on)) (world (env state_on))
              eq_refl eq_refl eq_refl eq_refl)
    as (s1 & H1 & H2 & _ & _ & H3).
  exists s1. split; [exact H1|]. split; [exact H2|exact H3].
Defined.

(** Scenario C: chain id 5 has no configuration. *)
Lemma getClientUsingCache_network_not_found_witness :
  getClientUsingCache 5 state_on
  = (Ret (None, Some (errorString "could not find network: 5")),
     logged [EvFind 5%N] state_on).
Proof.
  exact (proj1 (getClientUsingCache_network_not_found 5%N state_on
                  eq_refl eq_refl ltac:(discriminate))).
Defined.

(** Chain 137: the primary URL can be dialed, the fallback URL cannot. *)
Lemma getClientUsingCache_dial_failure_witness :
  exists s',
    getClientUsingCache 137 state_on
      = (Ret (None, Some (errorString "dial upstream server: connection refused")), s')
    /\ client s' = client state_on
    /\ endpoints (env s') = endpoints (env state_on).
Proof.
  exact (proj2 (getClientUsingCache_dial_failure 137%N state_on network137
                  eq_refl eq_refl)
           "https://polygon.example" refused
           (world (env state_on)) (world (env state_on))
           ltac:(vm_compute; lia) eq_refl eq_refl).
Defined.


(** The upstream chain id passed is 5, the upstream is disabled. *)
Lemma NewClient_disabled_upstream_chain_zero_witness :
  exists c e',
    NewClient (Some "ipc://local") 5 upstream_off [] tt env0 = (Ret (Some c, None), e')
    /\ upstream c = None
    /\ UpstreamChainID c = 0%N.
Proof.
  destruct (NewClient_disabled_upstream_chain_zero (PF := sample_platform)
              (Some "ipc://local") 5%N upstream_off [] tt env0 eq_refl)
    as (c & e' & H1 & H2 & H3 & _).
  exists c, e'. split; [exact H1|]. split; [exact H2|exact H3].
Defined.

(** Scenario E: the structured value [{ "x": 1 }] bound to a [[]byte]. *)
Lemma setResultFromRPCResponse_binds_witness :
  setResultFromRPCResponse bytes_slot object_x1 ∅
  = (Ret None, <[7%N := bytesVal (String.list_byte_of_string json_x1)]> ∅).
Proof.
  exact (proj1 (proj1 (setResultFromRPCResponse_binds ∅ (TPtr T_bytes) T_bytes 7%N
                         object_x1 eq_refl)
                  eq_refl (String.list_byte_of_string json_x1) eq_refl)).
Defined.

(** A value that is not settable; a nil pointer; a string for an [int]. *)
Lemma setResultFromRPCResponse_fails_cleanly_witness :
  assignResult (ValueOf (Some (T_int, VInt 42))) (ValueOf (Some (T_int, VInt 1))) ∅
    = (Ret (Some (errorString "can't assign value to result")), ∅)
  /\ (exists r,
        setResultFromRPCResponse (Some (TPtr T_int, VPtr None)) (Some (T_int, VInt 1)) ∅
        = (Ret (Some (errorString ("invalid result type: " +:+ PanicValue_String r))), ∅))
  /\ (exists r,
        setResultFromRPCResponse int_slot (Some (T_string, VString "1")) ∅
        = (Ret (Some (errorString ("invalid result type: " +:+ PanicValue_String r))), ∅)).
Proof.
  destruct setResultFromRPCResponse_fails_cleanly as (_ & H2 & H3 & H4).
  split; [|split].
  - exact (H2 (ValueOf (Some (T_int, VInt 42))) (ValueOf (Some (T_int, VInt 1))) ∅ eq_refl).
  - exact (H3 ∅ (Some (TPtr T_int, VPtr None)) (Some (T_int, VInt 1)) eq_refl eq_refl).
  - refine (H4 ∅ (TPtr T_int) T_int 7%N (Some (T_string, VString "1")) eq_refl eq_refl _).
    intros t v [= <- <-]. reflexivity.
Defined.

(** ** The scenarios of the specification on the sample platform *)

Example boot_on : boot 1 upstream_on = Some state_on.
Proof. reflexivity. Qed.

(** Scenario A: upstream disabled and no local endpoint. *)
Example scenario_A :
  match NewClient None 0 upstream_off [] tt env0 with
  | (Ret (Some c, None), e) =>
      fst (CallContext tt None 1 "eth_blockNumber" [] {| client := c; env := e |})
      = Ret (Some (errorString "missing local JSON-RPC endpoint"))
  | _ => False
  end.
Proof. vm_compute. reflexivity. Qed.

(** Scenario B: the handler answers and chain 1 is not dialed. *)
Example scenario_B :
  let s := snd (RegisterHandler "wallet_getBalance" (Answer (Some (T_int, VInt 42))) state_on) in
  let '(out, s') := CallContext tt int_slot 1 "wallet_getBalance" [] s in
  out = Ret None
  /\ mem (env s') !! 7%N = Some (VInt 42)
  /\ trace (env s') = trace (env s) ++ [EvCountCall "wallet_getBalance"]
  /\ rpcClients (client s') = rpcClients (client s).
Proof. vm_compute. repeat split. Qed.

(** Without the handler the same method of the remote list dials chain 1. *)
Example remote_dials :
  let '(out, s') := CallContext tt int_slot 1 "eth_getBalance" [] state_on in
  out = Ret None
  /\ dials (trace (env s')) = dials (trace (env state_on)) + 2
  /\ rpcClients (client s') !! 1%N = Some (Some 1).
Proof. vm_compute. repeat split. Qed.

(** Scenario E through [callMethod]. *)
Example scenario_E :
  let '(out, s') := callMethod tt bytes_slot 1 (Answer object_x1) [] state_on in
  out = Ret None
  /\ mem (env s') !! 7%N = Some (bytesVal (String.list_byte_of_string json_x1)).
Proof. vm_compute. repeat split. Qed.

(** What a nil pointer, a value that is no pointer and a nil result give. *)
Example nil_pointer_result :
  fst (setResultFromRPCResponse (Some (TPtr T_int, VPtr None)) (Some (T_int, VInt 1)) ∅)
  = Ret (Some (errorString
      "invalid result type: reflect: call of reflect.Value.Type on zero Value")).
Proof. reflexivity. Qed.

Example value_result :
  fst (setResultFromRPCResponse (Some (T_int, VInt 0)) (Some (T_int, VInt 1)) ∅)
  = Ret (Some (errorString
      "invalid result type: reflect: call of reflect.Value.Elem on int Value")).
Proof. reflexivity. Qed.

Example nil_result :
  fst (setResultFromRPCResponse None (Some (T_int, VInt 1)) ∅)
  = Ret (Some (errorString
      "invalid result type: reflect: call of reflect.Value.Elem on zero Value")).
Proof. reflexivity. Qed.

Example mismatch_result :
  fst (setResultFromRPCResponse int_slot (Some (T_string, VString "1")) ∅)
  = Ret (Some (errorString
      "invalid result type: reflect.Set: value of type string is not assignable to type int")).
Proof. reflexivity. Qed.

(** * The further properties on the sample platform *)

Lemma cache_wf_state_on : cache_wf state_on.
Proof.
  split.
  - intros id p H. simpl in H. by rewrite lookup_empty in H.
  - intros a [= <-]. eexists. repeat split; reflexivity.
Qed.

Lemma getClientUsingCache_keeps_witness :
  rpcClients (client (snd (getClientUsingCache 10 state_cached))) !! 1%N
  = rpcClients (client state_cached) !! 1%N.
Proof.
  exact (proj2 (getClientUsingCache_keeps 10%N state_cached) 1%N ltac:(discriminate)).
Defined.

Lemma getClientUsingCache_dial_bound_witness :
  let s' := snd (getClientUsingCache 1 state_cached) in
  dials (trace (env s')) = dials (trace (env state_cached))
  /\ world (env s') = world (env state_cached)
  /\ endpoints (env s') = endpoints (env state_cached).
Proof.
  exact (proj2 (proj2 (getClientUsingCache_dial_bound 1%N state_cached))
           ltac:(left; eexists; vm_compute; reflexivity)).
Defined.

Lemma NewClient_client_witness :
  NewClient (Some "ipc://local") 1 upstream_on networks0 tt env0
    = (Ret (Some client_on, None), env_on)
  /\ rpcClients client_on = ∅
  /\ upstream client_on = Some 0
  /\ (exists conn,
        fst (sample_Dial "https://upstream.example" (snd (sample_Init tt networks0 world0)))
        = inl conn
        /\ endpoints env_on
           = [] ++ [{| cwf_ChainID := 1; cwf_main := conn; cwf_fallback := None |}])
  /\ cache_wf state_on.
Proof.
  pose proof (NewClient_client (PF := sample_platform) (Some "ipc://local") 1%N
                upstream_on networks0 tt env0 client_on env_on eq_refl)
    as (H1 & _ & _ & _ & _ & _ & H7 & _ & H9).
  split; [reflexivity|]. split; [exact H1|].
  split; [exact (proj1 H7)|]. split; [exact (proj2 (proj2 (proj2 H7)))|exact H9].
Defined.

(** The database cannot be written: the construction succeeds all the same
    and the message is in the log. *)
Lemma NewClient_fails_only_on_dial_witness :
  let r := NewClient (PF := broken_platform) (Some "ipc://local") 1 upstream_on
             networks0 tt broken_env0 in
  (exists c, fst r = Ret (Some c, None))
  /\ trace (snd r)
     = [EvInit networks0; EvLog "error" "Network manager failed to initialize";
        EvDial "https://upstream.example"].
Proof.
  intros r.
  pose proof (NewClient_fails_only_on_dial (PF := broken_platform) (Some "ipc://local")
                1%N upstream_on networks0 tt broken_env0) as (H1 & H2 & _).
  split; [exact H1|exact H2].
Defined.

Lemma cache_wf_preserved_witness :
  cache_wf (snd (getClientUsingCache 10 state_on))
  /\ cache_wf (snd (UpdateUpstreamURL "https://other.example" state_on)).
Proof.
  pose proof (cache_wf_preserved state_on cache_wf_state_on) as (H1 & _ & H3 & _).
  split; [exact (H1 10%N)|exact (H3 "https://other.example")].
Defined.

Lemma getClientUsingCache_endpoint_witness :
  exists record,
    endpoints (env state_cached) !! 1 = Some record /\ cwf_ChainID record = 1%N.
Proof.
  exact (getClientUsingCache_endpoint 1%N state_on (Some 1) state_cached
           cache_wf_state_on ltac:(vm_compute; reflexivity)).
Defined.

Lemma EthClients_cached_witness :
  EthClients [1%N; 1%N] state_cached = (Ret (Some [Some 1; Some 1], None), state_cached).
Proof.
  apply (EthClients_cached [1%N; 1%N] [Some 1; Some 1] state_cached).
  repeat constructor.
Defined.

Lemma EthClients_success_witness :
  let s' := snd (EthClients [1%N; 10%N] state_on) in
  keeps state_on s'
  /\ Forall2 (fun id p =>
                rpcClients (client s') !! id = Some p
                \/ (p = upstream (client state_on)
                    /\ UpstreamChainID (client state_on) = id))
       [1%N; 10%N] [Some 1; Some 2].
Proof.
  intros s'.
  exact (proj2 (EthClients_success [1%N; 10%N] state_on [Some 1; Some 2] s'
                  ltac:(vm_compute; reflexivity))).
Defined.

Lemma UpdateUpstreamURL_keeps_cache_witness :
  let s' := snd (UpdateUpstreamURL "https://other.example" state_cached) in
  getClientUsingCache 1 s' = (Ret (Some 1, None), s').
Proof.
  intros s'.
  pose proof (UpdateUpstreamURL_keeps_cache "https://other.example" state_cached)
    as (_ & _ & _ & _ & _ & _ & _ & _ & H).
  exact (H 1%N (Some 1) ltac:(vm_compute; reflexivity)).
Defined.

Lemma UpdateUpstreamURL_then_lookup_witness :
  let s' := snd (UpdateUpstreamURL "https://other.example" state_five) in
  upstreamURL (client s') = "https://other.example"
  /\ exists a,
      fst (getClientUsingCache 5 s') = Ret (Some a, None)
      /\ endpoints (env s') !! a
         = Some {| cwf_ChainID := 5; cwf_main := "https://other.example";
                   cwf_fallback := None |}.
Proof.
  exact (UpdateUpstreamURL_then_lookup "https://other.example" state_five 0
           "https://other.example" (world (env state_five))
           eq_refl eq_refl eq_refl eq_refl).
Defined.

Lemma CallContext_missing_local_witness :
  CallContext tt None 1 "eth_blockNumber" [] state_off
  = (Ret (Some (errorString "missing local JSON-RPC endpoint")),
     logged [EvCountCall "eth_blockNumber";
             EvLog "warn" "Local JSON-RPC endpoint missing"] state_off).
Proof.
  exact (CallContext_missing_local tt None 1%N "eth_blockNumber" [] state_off
           (newRouter false) eq_refl eq_refl eq_refl eq_refl eq_refl).
Defined.

Lemma CallContextIgnoringLocalHandlers_lookup_error_witness :
  CallContextIgnoringLocalHandlers tt int_slot 5 "eth_call" [] state_on
  = (Ret (Some (errorString "could not find network: 5")), logged [EvFind 5%N] state_on).
Proof.
  exact (proj1 (CallContextIgnoringLocalHandlers_lookup_error tt int_slot 5%N
                  "eth_call" [] state_on (newRouter true) None
                  (errorString "could not find network: 5")
                  (logged [EvFind 5%N] state_on)
                  eq_refl eq_refl eq_refl ltac:(vm_compute; reflexivity))).
Defined.

Lemma CallContextIgnoringLocalHandlers_remote_witness :
  exists record,
    endpoints (env state_cached) !! 1 = Some record
    /\ cwf_ChainID record = 1%N
    /\ CallContextIgnoringLocalHandlers tt int_slot 1 "eth_call" [] state_on
       = chain_CallContext record tt int_slot "eth_call" []
           (logged [EvChainCall 1 "eth_call"] state_cached).
Proof.
  exact (CallContextIgnoringLocalHandlers_remote tt int_slot 1%N "eth_call" []
           state_on (newRouter true) 1 state_cached cache_wf_state_on
           eq_refl eq_refl eq_refl ltac:(vm_compute; reflexivity)).
Defined.

Lemma RegisterHandler_last_wins_witness :
  let s2 := snd (RegisterHandler "eth_getBalance" (Answer (Some (T_int, VInt 2)))
                   (snd (RegisterHandler "eth_getBalance" (Fail insufficient_funds)
                           state_on))) in
  CallContext tt int_slot 1 "eth_getBalance" [] s2
  = callMethod tt int_slot 1 (Answer (Some (T_int, VInt 2))) []
      (logged [EvCountCall "eth_getBalance"] s2).
Proof.
  intros s2.
  pose proof (RegisterHandler_last_wins "eth_getBalance" (Fail insufficient_funds)
                (Answer (Some (T_int, VInt 2))) state_on)
    as (_ & _ & _ & _ & _ & _ & _ & H).
  exact (H tt int_slot 1%N [] (newRouter true) eq_refl eq_refl).
Defined.

Lemma Call_nil_result_witness :
  let s := snd (RegisterHandler "eth_sendTransaction" (Fail insufficient_funds) state_on) in
  Call tt None 1 "eth_sendTransaction" [] s
  = (Ret (Some insufficient_funds), logged [EvCountCall "eth_sendTransaction"] s).
Proof.
  intros s.
  exact (Call_nil_result tt 1%N "eth_sendTransaction" [] s (newRouter true)
           (Fail insufficient_funds) eq_refl eq_refl eq_refl).
Defined.

Lemma callMethod_nil_response_witness :
  callMethod tt int_slot 1 (Answer None) [] state_on
  = (Ret (Some (errorString
        "invalid result type: reflect: call of reflect.Value.Set on zero Value")),
     state_on).
Proof.
  exact (callMethod_nil_response tt 1%N (Answer None) [] state_on (TPtr T_int) T_int
           7%N state_on eq_refl eq_refl eq_refl).
Defined.

Lemma setResultFromRPCResponse_any_slot_witness :
  setResultFromRPCResponse any_slot (Some (T_string, VString "0x10")) ∅
  = (Ret None, <[7%N := VIface (Some (T_string, VString "0x10"))]> ∅).
Proof.
  exact (setResultFromRPCResponse_any_slot ∅ (TPtr T_any) 7%N T_string
           (VString "0x10") eq_refl eq_refl).
Defined.

Lemma setResultFromRPCResponse_writes_one_slot_witness :
  exists pt T l x,
    int_slot = Some (pt, VPtr (Some l))
    /\ underlying pt = TPtr T
    /\ snd (setResultFromRPCResponse int_slot (Some (T_int, VInt 42)) ∅) = <[l := x]> ∅
    /\ forall l', l' <> l ->
        snd (setResultFromRPCResponse int_slot (Some (T_int, VInt 42)) ∅) !! l'
        = (∅ : Mem) !! l'.
Proof.
  exact (proj2 (setResultFromRPCResponse_writes_one_slot ∅ int_slot
                  (Some (T_int, VInt 42))) eq_refl).
Defined.

(** An upstream that cannot be dialed fails the construction. *)
Example NewClient_upstream_down :
  fst (NewClient (Some "ipc://local") 1 {| Enabled := true; URL := "https://down.example" |}
         networks0 tt env0)
  = Ret (None, Some (errorString "dial upstream server: connection refused")).
Proof. reflexivity. Qed.
